(** * scira-mcp-chat: the chat turn pipeline

    A shallow embedding of
      - [src/app/api/chat/messages/route.ts]  (the persistence endpoint), and
      - [src/components/chat.tsx]             (the client chat session),
    together with the properties their specification states about them.

    JavaScript strings are sequences of UTF-16 code units; [async]
    functions are computations that leave a trace of observable effects and
    either return a value or throw. *)

From Stdlib Require Import String Ascii NArith Bool Arith Lia List.
Import ListNotations.

Set Implicit Arguments.
Set Warnings "-register-all".

(* ===================================================================== *)
(** ** JavaScript strings *)
(* ===================================================================== *)

Module JS.

(** A string is its list of UTF-16 code units. *)
Definition jsstring : Type := list N.

(** String literals of the source, which are all ASCII. *)
Definition lit (s : string) : jsstring :=
  map N_of_ascii (list_ascii_of_string s).

(** [!!s]: every string but the empty one is truthy. *)
Definition truthy (s : jsstring) : bool :=
  match s with
  | [] => false
  | _ :: _ => true
  end.

(** [!!x] for [x : string | undefined]. *)
Definition truthy_opt (x : option jsstring) : bool :=
  match x with
  | None => false
  | Some s => truthy s
  end.

(** [a || b] for [a : string | undefined] and [b : string]. *)
Definition or_else (a : option jsstring) (b : jsstring) : jsstring :=
  match a with
  | Some s => if truthy s then s else b
  | None => b
  end.

(** ECMAScript WhiteSpace and LineTerminator code points, the characters
    [String.prototype.trim] strips.  All of them are in the BMP. *)
Definition isWhiteSpace (c : N) : bool :=
  (N.eqb c 9 || N.eqb c 10 || N.eqb c 11 || N.eqb c 12 || N.eqb c 13
   || N.eqb c 32 || N.eqb c 160 || N.eqb c 5760
   || (N.leb 8192 c && N.leb c 8202)
   || N.eqb c 8232 || N.eqb c 8233 || N.eqb c 8239 || N.eqb c 8287
   || N.eqb c 12288 || N.eqb c 65279)%bool.

Fixpoint trimStart (s : jsstring) : jsstring :=
  match s with
  | [] => []
  | c :: rest => if isWhiteSpace c then trimStart rest else s
  end.

Definition trimEnd (s : jsstring) : jsstring :=
  rev (trimStart (rev s)).

(** [s.trim()] *)
Definition trim (s : jsstring) : jsstring := trimEnd (trimStart s).

(** A string is blank when it is empty or holds white space only. *)
Definition blank (s : jsstring) : bool := forallb isWhiteSpace s.

(** JSON values, as [JSON.parse] and [Request.json] produce them.  An
    object is its list of own properties, each key once. *)
Inductive JSON : Type :=
| JNull
| JBool (b : bool)
| JNum (text : jsstring)
| JStr (s : jsstring)
| JArr (items : list JSON)
| JObj (props : list (jsstring * JSON)).

Definition jsstring_eqb (a b : jsstring) : bool :=
  if list_eq_dec N.eq_dec a b then true else false.

Fixpoint assoc (k : jsstring) (props : list (jsstring * JSON)) : option JSON :=
  match props with
  | [] => None
  | (k', v) :: rest => if jsstring_eqb k k' then Some v else assoc k rest
  end.

(** Thrown values. *)
Record Exn : Type := mkExn { name : jsstring; message : jsstring }.

Definition Error (msg : string) : Exn :=
  {| name := lit "Error"; message := lit msg |}.

Definition TypeError (msg : string) : Exn :=
  {| name := lit "TypeError"; message := lit msg |}.

End JS.
Import JS.

(* ===================================================================== *)
(** ** Observable effects and the computations that produce them *)
(* ===================================================================== *)

(** One argument of a [console.error] call. *)
Inductive LogArg : Type :=
| LogText (s : jsstring)
| LogError (e : Exn)
| LogStringified (e : Exn).        (* JSON.stringify(error, null, 2) *)

Record ToastOptions : Type :=
  { position : jsstring; richColors : bool }.

Inductive Effect : Type :=
| ConsoleError (args : list LogArg)
| ToastError (text : jsstring) (opts : option ToastOptions)
| HttpGet (url : jsstring) (headers : list (jsstring * jsstring))
| HttpPost (url : jsstring) (headers : list (jsstring * jsstring)) (body : JSON)
| SaveMessages (records : JSON)
| Cleanup
| PreventDefault
| HandleSubmit (id : jsstring) (body : JSON)
| RouterPush (path : jsstring)
| InvalidateQueries (key : list jsstring).

(** A computation: the effects it performed, in order, and how it ended:
    [inl e] when it threw [e], [inr a] when it returned [a]. *)
Definition Eff (A : Type) : Type := (list Effect * (Exn + A))%type.

Definition ret {A} (a : A) : Eff A := ([], inr a).

Definition throw {A} (e : Exn) : Eff A := ([], inl e).

Definition emit (x : Effect) : Eff unit := ([x], inr tt).

(** Awaiting a promise that the environment settles. *)
Definition await {A} (settled : Exn + A) : Eff A := ([], settled).

Definition bind {A B} (c : Eff A) (k : A -> Eff B) : Eff B :=
  match c with
  | (t, inl e) => (t, inl e)
  | (t, inr a) => let (t', r) := k a in (t ++ t', r)
  end.

(** [try { body } catch (e) { handler e }] *)
Definition tryCatch {A} (body : Eff A) (handler : Exn -> Eff A) : Eff A :=
  match body with
  | (t, inl e) => let (t', r) := handler e in (t ++ t', r)
  | (t, inr a) => (t, inr a)
  end.

Declare Scope eff_scope.
Delimit Scope eff_scope with eff.
Notation "x <- c ;; k" := (bind c (fun x => k))
  (at level 61, c at next level, right associativity) : eff_scope.
Notation "c ;; k" := (bind c (fun _ => k))
  (at level 61, right associativity) : eff_scope.
Open Scope eff_scope.

Definition trace {A} (c : Eff A) : list Effect := fst c.
Definition outcome {A} (c : Eff A) : Exn + A := snd c.

Definition returns {A} (c : Eff A) : bool :=
  match outcome c with
  | inr _ => true
  | inl _ => false
  end.

Definition is_cleanup (x : Effect) : bool :=
  match x with Cleanup => true | _ => false end.

Definition is_toast (x : Effect) : bool :=
  match x with ToastError _ _ => true | _ => false end.

Definition is_submit (x : Effect) : bool :=
  match x with HandleSubmit _ _ => true | _ => false end.

Definition is_push (x : Effect) : bool :=
  match x with RouterPush _ => true | _ => false end.

Definition count (p : Effect -> bool) (t : list Effect) : nat :=
  length (filter p t).

(* ===================================================================== *)
(** ** [src/app/api/chat/messages/route.ts] *)
(* ===================================================================== *)

Module Route.

(** [NextResponse.json(body, { status })]; the status defaults to 200. *)
Record NextResponse : Type := { status : N; payload : JSON }.

Definition NextResponse_json (body : JSON) (st : option N) : NextResponse :=
  {| status := match st with Some s => s | None => 200%N end;
     payload := body |}.

(** What the handler sees of a request: the promise [req.json()]. *)
Record NextRequest : Type := { json : Exn + JSON }.

(** [const { messages, chatId } = v]: destructuring [null] throws; a
    property that is absent reads as [undefined]. *)
Definition destructure (v : JSON)
  : Eff (option JSON * option JSON) :=
  match v with
  | JNull =>
      throw (TypeError "Cannot destructure property 'messages' of null")
  | JObj props => ret (assoc (lit "messages") props, assoc (lit "chatId") props)
  | _ => ret (None, None)
  end.

Section Handler.

(** [@/lib/chat-store] is outside this development: its two functions
    are taken as they behave. *)
Variable convertToDBMessages : option JSON -> option JSON -> Exn + JSON.
Variable saveMessages : JSON -> Exn + unit.

Definition success_body : JSON := JObj [(lit "success", JBool true)].
Definition failure_body : JSON :=
  JObj [(lit "error", JStr (lit "Failed to save messages"))].

Definition POST (req : NextRequest) : Eff NextResponse :=
  tryCatch
    (v <- await (json req) ;;
     mc <- destructure v ;;
     (* Convert messages to DB format *)
     dbMessages <- await (convertToDBMessages (fst mc) (snd mc)) ;;
     (* Save messages to database *)
     emit (SaveMessages dbMessages) ;;
     await (saveMessages dbMessages) ;;
     ret (NextResponse_json success_body None))
    (fun error =>
       emit (ConsoleError [LogText (lit "Error saving messages:"); LogError error]) ;;
       ret (NextResponse_json failure_body (Some 500%N))).

(** The three stages the handler goes through. *)
Definition parsed (req : NextRequest) (v : JSON) : Prop :=
  json req = inr v.

Definition converted (req : NextRequest) (records : JSON) : Prop :=
  exists v m c,
    parsed req v /\ destructure v = ret (m, c) /\
    convertToDBMessages m c = inr records.




End Handler.

Definition ok_response : NextResponse :=
  NextResponse_json success_body None.

Definition failure_response : NextResponse :=
  NextResponse_json failure_body (Some 500%N).

(** The entry the handler logs for a thrown [e]. *)
Definition save_log (e : Exn) : Effect :=
  ConsoleError [LogText (lit "Error saving messages:"); LogError e].

End Route.

(* ===================================================================== *)
(** ** The tool-use loop behind [streamText] *)
(* ===================================================================== *)

Module CompletionEngine.

(** Modelled from the spec: [streamText] and its loop belong to the [ai]
    package, which is not part of this repository; the types below carry
    what section 4.2 of the specification says a step consumes and
    produces. *)

(** One entry of the turn history. *)
Inductive Part : Type :=
| Text (text : jsstring)
| ToolCall (tool : jsstring) (args : JSON)
| ToolResult (tool : jsstring) (result : JSON).

(** What the model answers in one step. *)
Inductive ModelReply : Type :=
| Final (text : jsstring)
| Invoke (calls : list (jsstring * JSON))
| ModelFailure (error : Exn).

Inductive Ending : Type :=
| Done
| Truncated
| Errored (error : Exn).

Record Run : Type :=
  { ending : Ending; history : list Part; steps : nat }.

Definition is_terminal (r : ModelReply) : bool :=
  match r with
  | Invoke _ => false
  | _ => true
  end.

Definition call_parts (calls : list (jsstring * JSON)) : list Part :=
  map (fun c => ToolCall (fst c) (snd c)) calls.

(** Results are attached in the order the model requested the calls. *)
Definition result_parts (exec : jsstring -> JSON -> JSON)
           (calls : list (jsstring * JSON)) : list Part :=
  map (fun c => ToolResult (fst c) (exec (fst c) (snd c))) calls.

(** Modelled from the spec: the loop of [streamText] is in the [ai]
    package, not in this repository.  Each step, the model either
    produces final text or requests tool invocations; the invoked tools
    execute, their results are appended to the history, and the loop
    continues until the model emits a terminal response or [maxSteps]
    is reached.  Reaching [maxSteps] ends the loop with the content
    gathered so far; a model error aborts the loop.
    [remaining] counts the steps still allowed, [done] those taken. *)
Fixpoint loop (remaining : nat) (model : list Part -> ModelReply)
         (exec : jsstring -> JSON -> JSON) (h : list Part) (done : nat) : Run :=
  match remaining with
  | O => {| ending := Truncated; history := h; steps := done |}
  | S k =>
      match model h with
      | Final text =>
          {| ending := Done; history := h ++ [Text text]; steps := S done |}
      | Invoke calls =>
          loop k model exec
               (h ++ call_parts calls ++ result_parts exec calls) (S done)
      | ModelFailure error =>
          {| ending := Errored error; history := h; steps := S done |}
      end
  end.

(** Modelled from the spec: what [n] consecutive tool-using steps are.
    [rounds model exec n h h'] holds when, [n] times in a row starting at
    [h], the model was asked at the history reached so far, answered with
    tool invocations, and those calls and then their results, in the order
    requested, were appended; [h'] is the history this leaves. *)
Inductive rounds (model : list Part -> ModelReply)
          (exec : jsstring -> JSON -> JSON)
  : nat -> list Part -> list Part -> Prop :=
| rounds_O : forall h, rounds model exec 0 h h
| rounds_S : forall n h calls h',
    model h = Invoke calls ->
    rounds model exec n (h ++ call_parts calls ++ result_parts exec calls) h' ->
    rounds model exec (S n) h h'.

Definition run (maxSteps : nat) (model : list Part -> ModelReply)
           (exec : jsstring -> JSON -> JSON) (h : list Part) : Run :=
  loop maxSteps model exec h 0.

End CompletionEngine.

(* ===================================================================== *)
(** ** [src/components/chat.tsx] *)
(* ===================================================================== *)

Module Chat.

(** *** Data *)

(** Modelled from the spec: the persisted message
    [{ id, conversationId, role, content, parts, createdAt }] of
    [@/lib/db/schema], which is not part of this development. *)
Record DBMessage : Type :=
  { db_id : jsstring; db_conversationId : jsstring; db_role : jsstring;
    db_content : JSON; db_parts : JSON; db_createdAt : jsstring }.

(** [interface ChatData]; [messages] is tested for absence by the code. *)
Record ChatData : Type :=
  { id : jsstring; messages : option (list DBMessage);
    createdAt : jsstring; updatedAt : jsstring }.

(** What [convertToUIMessages] yields, as far as the component reads it. *)
Record UIMessage : Type :=
  { ui_id : jsstring; ui_role : jsstring; ui_content : JSON; ui_parts : JSON;
    ui_createdAt : jsstring }.

(** [Message] of [@ai-sdk/react], as the component builds it. *)
Record Message : Type :=
  { msg_id : jsstring; msg_role : jsstring; msg_content : JSON; msg_parts : JSON }.

(** A [fetch] response: [ok] is the 2xx range of [status]. *)
Record Response : Type :=
  { status : N; json : Exn + option ChatData }.

Definition ok (r : Response) : bool :=
  (N.leb 200 (status r) && N.leb (status r) 299)%bool.

(** What the environment contributes to one run of the query function:
    how [fetch] settles, and the two readings of [new Date()]. *)
Record Attempt : Type :=
  { response : Exn + Response; now1 : jsstring; now2 : jsstring }.

(** *** History query *)

(** The GET the query function issues. *)
Definition history_request (chatId userId : jsstring) : Effect :=
  HttpGet (lit "/api/chats/" ++ chatId) [(lit "x-user-id", userId)].

Definition queryFn (chatId : option jsstring) (userId : jsstring)
           (env : Attempt) : Eff (option ChatData) :=
  if (negb (truthy_opt chatId) || negb (truthy userId))%bool then ret None
  else
    (* past the guard [chatId] is a string, and not the empty one *)
    let chatId := or_else chatId [] in
    emit (history_request chatId userId) ;;
    response <- await (response env) ;;
    if negb (ok response) then
      (* For 404, return empty chat data instead of throwing *)
      if N.eqb (status response) 404 then
        ret (Some {| id := chatId;
                     messages := Some [];
                     createdAt := now1 env;
                     updatedAt := now2 env |})
      else throw (Error "Failed to load chat")
    else await (json response).

(** [{ data, isLoading, error }] of [useQuery]. *)
Record QueryResult : Type :=
  { data : option ChatData; isLoadingChat : bool; error : option Exn }.

Definition enabled (chatId : option jsstring) (userId : jsstring) : bool :=
  (truthy_opt chatId && truthy userId)%bool.

Definition retry : nat := 1.

(** The query library on a fresh cache entry: it runs the query function,
    runs it again while it throws and retries are left, and settles with
    the data returned or the last error thrown. *)
Fixpoint fetchQuery (retries : nat) (chatId : option jsstring)
         (userId : jsstring) (env : nat -> Attempt) (attempt : nat)
  : list Effect * QueryResult :=
  match queryFn chatId userId (env attempt) with
  | (t, inr d) => (t, {| data := d; isLoadingChat := false; error := None |})
  | (t, inl e) =>
      match retries with
      | O => (t, {| data := None; isLoadingChat := false; error := Some e |})
      | S k =>
          let (t', q) := fetchQuery k chatId userId env (S attempt) in
          (t ++ t', q)
      end
  end.

Definition useQuery (chatId : option jsstring) (userId : jsstring)
           (env : nat -> Attempt) : list Effect * QueryResult :=
  if enabled chatId userId then fetchQuery retry chatId userId env 0
  else ([], {| data := None; isLoadingChat := false; error := None |}).

(** Handle query errors *)
Definition errorEffect (error : option Exn) : Eff unit :=
  match error with
  | Some e =>
      emit (ConsoleError [LogText (lit "Error loading chat history:"); LogError e]) ;;
      emit (ToastError (lit "Failed to load chat history") None)
  | None => ret tt
  end.

(** Prepare initial messages from query data *)
Definition initialMessages (convertToUIMessages : list DBMessage -> list UIMessage)
           (chatData : option ChatData) : list Message :=
  match chatData with
  | None => []
  | Some d =>
      match messages d with
      | None => []
      | Some ms =>
          if Nat.eqb (length ms) 0 then []
          else
            map (fun msg => {| msg_id := ui_id msg;
                               msg_role := ui_role msg;
                               msg_content := ui_content msg;
                               msg_parts := ui_parts msg |})
                (convertToUIMessages ms)
      end
  end.

(** *** The streaming request *)

(** [v.key] for [v : any]: reading a property of [null] throws, a
    property that is absent reads as [undefined]. *)
Definition prop (v : JSON) (key : string) : Eff (option JSON) :=
  match v with
  | JNull =>
      throw (TypeError ("Cannot read properties of null (reading '"
                          ++ key ++ "')"))
  | JObj props => ret (assoc (lit key) props)
  | _ => ret None
  end.

(** [JSON.stringify] of an object literal leaves out the properties whose
    value is [undefined]. *)
Fixpoint stringify_object (fields : list (string * option JSON)) : JSON :=
  match fields with
  | [] => JObj []
  | (k, Some v) :: rest =>
      match stringify_object rest with
      | JObj props => JObj ((lit k, v) :: props)
      | other => other
      end
  | (_, None) :: rest => stringify_object rest
  end.

Record AbortSignal : Type := { aborted : bool }.

Record RequestInit : Type :=
  { body : option jsstring; signal : option AbortSignal }.

(** What [initializeMCPClients] resolves to.  Calling its [cleanup] is the
    effect [Cleanup]. *)
Record MCPClientManager : Type := { tools : JSON }.

Module streamText.

(** The options [customFetch] passes to [streamText].  The system prompt
    is a constant text and is left out. *)
Record Options : Type :=
  { model : option JSON;
    messages : option JSON;
    abortSignal : option AbortSignal;
    tools : JSON;
    maxSteps : nat;
    experimental_transform : N * jsstring;   (* delayInMs, chunking *)
    onError : Exn -> Eff unit;
    onFinish : JSON -> Eff unit }.

(** Three ways a stream ends: it completes; the model call fails before
    any content was produced; the request is cancelled before any content
    was produced. *)
Inductive End : Type :=
| Completed (messages : JSON)
| Failed (error : Exn)
| Cancelled.

(** A callback [streamText] makes while it consumes the stream. *)
Inductive Callback : Type :=
| OnFinish (messages : JSON)
| OnError (error : Exn).

Fixpoint deliver (o : Options) (calls : list Callback) : Eff unit :=
  match calls with
  | [] => ret tt
  | OnFinish messages :: rest => onFinish o messages ;; deliver o rest
  | OnError error :: rest => onError o error ;; deliver o rest
  end.

(** Modelled from the spec: which callbacks a stream makes is decided by
    [streamText] of the [ai] package, which is not part of this repository.
    On natural completion the finalize callback is invoked (section 4.3):
    [onFinish] with the finished messages.  A model error is logged and
    surfaced as an error event (section 4.2): [onError] with the error.  A
    cancellation is not an error (section 5), and finalize is skipped when
    no content was produced before it (section 4.3): no callback.  Streams
    that end otherwise make other sequences of callbacks; [deliver] takes
    any sequence. *)
Definition callbacks_of (e : End) : list Callback :=
  match e with
  | Completed messages => [OnFinish messages]
  | Failed error => [OnError error]
  | Cancelled => []
  end.

Definition is_finish (c : Callback) : bool :=
  match c with
  | OnFinish _ => true
  | OnError _ => false
  end.

End streamText.

Section Request.

(** The platform's [JSON.parse], [initializeMCPClients] of
    [../lib/mcp-client], and how the POST to [/api/chat/messages]
    settles for a given body. *)
Variable JSON_parse : option jsstring -> Exn + JSON.
Variable initializeMCPClients :
  option JSON -> option AbortSignal -> Exn + MCPClientManager.
Variable persist : JSON -> Exn + Route.NextResponse.

Definition persist_body (m messages : JSON) : Eff JSON :=
  chatId <- prop m "chatId" ;;
  ret (stringify_object [("messages"%string, Some messages);
                         ("chatId"%string, chatId)]).

(** The POST that saves the messages. *)
Definition post_request (body : JSON) : Effect :=
  HttpPost (lit "/api/chat/messages")
           [(lit "Content-Type", lit "application/json")] body.

Definition persist_log (error : Exn) : Effect :=
  ConsoleError [LogText (lit "Failed to save messages:"); LogError error].

(** [onFinish] of the [streamText] call. *)
Definition onFinish (m : JSON) (messages : JSON) : Eff unit :=
  (* Save messages to database after completion *)
  tryCatch
    (body <- persist_body m messages ;;
     emit (post_request body) ;;
     _ <- await (persist body) ;;
     ret tt)
    (fun error => emit (persist_log error)) ;;
  emit Cleanup.

(** [onError] of the [streamText] call. *)
Definition onError (error : Exn) : Eff unit :=
  emit (ConsoleError [LogStringified error]).

(** [customFetch] up to the call [streamText({...})]: everything the
    function itself does, ending with the options it hands over.  The call
    and [result.toDataStreamResponse()] follow in [customFetch_response]. *)
Definition customFetch (options : option RequestInit)
  : Eff streamText.Options :=
  m <- await (JSON_parse (match options with
                          | Some o => body o
                          | None => None
                          end)) ;;
  let signal := match options with
                | Some o => signal o
                | None => None
                end in
  mcpServers <- prop m "mcpServers" ;;
  mcp <- await (initializeMCPClients mcpServers signal) ;;
  selectedModel <- prop m "selectedModel" ;;
  messages <- prop m "messages" ;;
  ret {| streamText.model := selectedModel;
         streamText.messages := messages;
         streamText.abortSignal := signal;
         streamText.tools := tools mcp;
         streamText.maxSteps := 20;
         streamText.experimental_transform := (5%N, lit "line");
         streamText.onError := onError;
         streamText.onFinish := onFinish m |}.

(** One request: [customFetch], then the callbacks its stream makes. *)
Definition serve (options : option RequestInit)
           (calls : list streamText.Callback) : Eff unit :=
  stream <- customFetch options ;;
  streamText.deliver stream calls.

Definition request (options : option RequestInit) (e : streamText.End)
  : Eff unit :=
  serve options (streamText.callbacks_of e).

End Request.

(** *** The chat session *)

Inductive Status : Type :=
| submitted
| streaming
| ready
| error_status.

Definition Status_eqb (a b : Status) : bool :=
  match a, b with
  | submitted, submitted => true
  | streaming, streaming => true
  | ready, ready => true
  | error_status, error_status => true
  | _, _ => false
  end.

(** The state the component renders from. *)
Record Session : Type :=
  { chatId : option jsstring;          (* params?.id *)
    generatedChatId : jsstring;
    userId : jsstring;
    input : jsstring;
    selectedModel : jsstring;
    mcpServersForApi : JSON }.

Module useChat.

Record Options : Type :=
  { id : jsstring;
    maxSteps : nat;
    body : JSON;
    experimental_throttle : N;
    onFinish : Eff unit;
    onError : Exn -> Eff unit }.

End useChat.

Definition fallback_text : jsstring :=
  lit "An error occured, please try again later.".

Definition useChat_onFinish (s : Session) : Eff unit :=
  (* Invalidate the chats query to refresh the sidebar *)
  if truthy (userId s) then emit (InvalidateQueries [lit "chats"; userId s])
  else ret tt.

Definition useChat_onError (error : Exn) : Eff unit :=
  emit (ToastError
          (if Nat.ltb 0 (length (message error)) then message error
           else fallback_text)
          (Some {| position := lit "top-center"; richColors := true |})).

Definition useChat_options (s : Session) : useChat.Options :=
  {| useChat.id := or_else (chatId s) (generatedChatId s);
     useChat.maxSteps := 20;
     useChat.body :=
       JObj [(lit "selectedModel", JStr (selectedModel s));
             (lit "mcpServers", mcpServersForApi s);
             (lit "chatId", JStr (or_else (chatId s) (generatedChatId s)));
             (lit "userId", JStr (userId s))];
     useChat.experimental_throttle := 500;
     useChat.onFinish := useChat_onFinish s;
     useChat.onError := useChat_onError |}.

(** [handleSubmit(e)] of the hook: it submits under the hook's [id] with
    the hook's [body]. *)
Definition handleSubmit (s : Session) : Eff unit :=
  emit (HandleSubmit (useChat.id (useChat_options s))
                     (useChat.body (useChat_options s))).

(** Custom submit handler *)
Definition handleFormSubmit (s : Session) : Eff unit :=
  emit PreventDefault ;;
  if (negb (truthy_opt (chatId s)) && truthy (generatedChatId s)
      && truthy (trim (input s)))%bool
  then
    (* If this is a new conversation, redirect to the chat page with the
       generated ID *)
    let effectiveChatId := generatedChatId s in
    handleSubmit s ;;
    emit (RouterPush (lit "/chat/" ++ effectiveChatId))
  else
    (* Normal submission for existing chats *)
    handleSubmit s.

Definition isLoading (status : Status) (isLoadingChat : bool) : bool :=
  (Status_eqb status streaming || Status_eqb status submitted
   || isLoadingChat)%bool.

(** *** Mount effects *)

(** Initialize userId: [setUserId(getUserId())]. *)
Definition userIdEffect (getUserId : jsstring) (s : Session) : Session :=
  {| chatId := chatId s;
     generatedChatId := generatedChatId s;
     userId := getUserId;
     input := input s;
     selectedModel := selectedModel s;
     mcpServersForApi := mcpServersForApi s |}.

(** Generate a chat ID if needed: [if (!chatId) setGeneratedChatId(nanoid())];
    [nanoid] is the id the generator hands out. *)
Definition generatedChatIdEffect (nanoid : jsstring) (s : Session) : Session :=
  if negb (truthy_opt (chatId s)) then
    {| chatId := chatId s;
       generatedChatId := nanoid;
       userId := userId s;
       input := input s;
       selectedModel := selectedModel s;
       mcpServersForApi := mcpServersForApi s |}
  else s.

(** *** Rendering *)

(** Which of the two layouts the component returns. *)
Inductive View : Type :=
| ProjectOverview        (* the start screen with the form below it *)
| Messages.              (* the message list with the form below it *)

(** What the returned tree depends on: the layout, and the props handed to
    [Textarea] (and, in the second layout, to [Messages]). *)
Record Rendered : Type :=
  { view : View; prop_isLoading : bool; prop_status : Status }.

Definition render (messages : list Message) (status : Status)
           (isLoadingChat : bool) : Rendered :=
  {| view := if (Nat.eqb (length messages) 0 && negb isLoadingChat)%bool
             then ProjectOverview else Messages;
     prop_isLoading := isLoading status isLoadingChat;
     prop_status := status |}.

(** *** Reading a parsed request body *)

(** The value [prop] returns for a body that is not [null]. *)
Definition own (v : JSON) (key : string) : option JSON :=
  match v with
  | JObj props => assoc (lit key) props
  | _ => None
  end.

(** [options?.body] and [options?.signal]. *)
Definition body_of (options : option RequestInit) : option jsstring :=
  match options with
  | Some o => body o
  | None => None
  end.

Definition signal_of (options : option RequestInit) : option AbortSignal :=
  match options with
  | Some o => signal o
  | None => None
  end.

(** *** The whole of [customFetch] *)

Section Response.

Variable JSON_parse : option jsstring -> Exn + JSON.
Variable initializeMCPClients :
  option JSON -> option AbortSignal -> Exn + MCPClientManager.
Variable persist : JSON -> Exn + Route.NextResponse.

(** The call [streamText({...})] itself: the [ai] package either takes the
    options or throws. *)
Variable streamText_call : streamText.Options -> Exn + unit.

(** [customFetch] from its first line to its [return]: the options are
    built, [streamText] is called with them, and the response of its result
    is returned; the response is identified with the stream it carries. *)
Definition customFetch_response (options : option RequestInit)
  : Eff streamText.Options :=
  stream <- customFetch JSON_parse initializeMCPClients persist options ;;
  await (streamText_call stream) ;;
  ret stream.

End Response.

(** *** Navigation *)





(** *** What a history fetch can come to *)

(** The fetch of one attempt is answered with a status that is neither a
    success nor 404. *)
Definition failed_response (env : Attempt) : Prop :=
  exists r, response env = inr r /\ ok r = false /\ status r <> 404%N.

(** The error is logged and shown, and there are no messages to start
    from. *)
Definition reported (convertToUIMessages : list DBMessage -> list UIMessage)
           (q : QueryResult) (e : Exn) : Prop :=
  error q = Some e /\
  errorEffect (error q) =
    ([ConsoleError [LogText (lit "Error loading chat history:"); LogError e];
      ToastError (lit "Failed to load chat history") None], inr tt) /\
  initialMessages convertToUIMessages (data q) = [].

End Chat.

(** The sessions in which a submit is followed by a navigation. *)
Definition navigates (s : Chat.Session) : bool :=
  (negb (truthy_opt (Chat.chatId s)) && truthy (Chat.generatedChatId s)
   && negb (blank (Chat.input s)))%bool.

(** Further classes of effects. *)
Definition is_save (x : Effect) : bool :=
  match x with SaveMessages _ => true | _ => false end.

Definition is_console_error (x : Effect) : bool :=
  match x with ConsoleError _ => true | _ => false end.

Definition is_get (x : Effect) : bool :=
  match x with HttpGet _ _ => true | _ => false end.

(* ===================================================================== *)
(** * Properties *)
(* ===================================================================== *)

(** ** Concrete runs *)

Example trim_strips_both_ends : trim (lit "  hello world ") = lit "hello world".
Proof. reflexivity. Qed.

Example trim_of_blank : trim (lit "   ") = [].
Proof. reflexivity. Qed.

Example nbsp_is_white_space : trim [160%N; 104%N; 8232%N] = [104%N].
Proof. reflexivity. Qed.

Example zero_width_space_is_kept : trim [8203%N] = [8203%N].
Proof. reflexivity. Qed.

Example POST_saves :
  Route.POST (fun _ _ => inr (JArr [])) (fun _ => inr tt)
             {| Route.json := inr (JObj [(lit "messages", JArr []);
                                         (lit "chatId", JStr (lit "X"))]) |}
  = ([SaveMessages (JArr [])], inr Route.ok_response).
Proof. reflexivity. Qed.

Example POST_null_body :
  Route.POST (fun _ _ => inr (JArr [])) (fun _ => inr tt)
             {| Route.json := inr JNull |}
  = ([Route.save_log
        (TypeError "Cannot destructure property 'messages' of null")],
     inr Route.failure_response).
Proof. reflexivity. Qed.

Example queryFn_without_user :
  Chat.queryFn (Some (lit "Y")) []
               {| Chat.response := inl (Error "unused");
                  Chat.now1 := []; Chat.now2 := [] |}
  = ([], inr None).
Proof. reflexivity. Qed.

Example routed_submit_stays :
  trace (Chat.handleFormSubmit
           {| Chat.chatId := Some (lit "Y");
              Chat.generatedChatId := [];
              Chat.userId := lit "u";
              Chat.input := lit "hello";
              Chat.selectedModel := lit "m";
              Chat.mcpServersForApi := JArr [] |})
  = [PreventDefault;
     HandleSubmit (lit "Y")
                  (JObj [(lit "selectedModel", JStr (lit "m"));
                         (lit "mcpServers", JArr []);
                         (lit "chatId", JStr (lit "Y"));
                         (lit "userId", JStr (lit "u"))])].
Proof. reflexivity. Qed.

Example loop_stops_at_final_text :
  CompletionEngine.run 20
    (fun h => match h with
              | [] => CompletionEngine.Invoke [(lit "search", JNull)]
              | _ => CompletionEngine.Final (lit "done")
              end)
    (fun _ _ => JStr (lit "hit")) []
  = {| CompletionEngine.ending := CompletionEngine.Done;
       CompletionEngine.history :=
         [CompletionEngine.ToolCall (lit "search") JNull;
          CompletionEngine.ToolResult (lit "search") (JStr (lit "hit"));
          CompletionEngine.Text (lit "done")];
       CompletionEngine.steps := 2 |}.
Proof. reflexivity. Qed.

(** ** Computations *)

Lemma trace_bind {A B} (c : Eff A) (k : A -> Eff B) a :
  outcome c = inr a -> trace (bind c k) = trace c ++ trace (k a).
Proof.
  destruct c as [t [e | a']]; simpl; intros H; [discriminate |].
  injection H as ->. destruct (k a) as [t' r]. reflexivity.
Qed.

Lemma outcome_bind {A B} (c : Eff A) (k : A -> Eff B) a :
  outcome c = inr a -> outcome (bind c k) = outcome (k a).
Proof.
  destruct c as [t [e | a']]; simpl; intros H; [discriminate |].
  injection H as ->. destruct (k a) as [t' r]. reflexivity.
Qed.

Lemma count_app p (t u : list Effect) : count p (t ++ u) = count p t + count p u.
Proof. unfold count. rewrite filter_app, length_app. reflexivity. Qed.

(** ** White space *)

Lemma trimStart_blank s : blank s = true -> trimStart s = [].
Proof.
  induction s as [| c s IH]; simpl; [reflexivity |].
  destruct (isWhiteSpace c); simpl; [exact IH | discriminate].
Qed.

Lemma blank_trimStart s : blank (trimStart s) = blank s.
Proof.
  induction s as [| c s IH]; simpl; [reflexivity |].
  destruct (isWhiteSpace c) eqn:E; simpl; [exact IH |].
  rewrite E. reflexivity.
Qed.

Lemma trimStart_nil_blank s : trimStart s = [] -> blank s = true.
Proof.
  induction s as [| c s IH]; simpl; [reflexivity |].
  destruct (isWhiteSpace c); simpl; [exact IH | discriminate].
Qed.

Lemma blank_rev s : blank (rev s) = blank s.
Proof.
  unfold blank. induction s as [| c s IH]; simpl; [reflexivity |].
  rewrite forallb_app, IH. simpl. rewrite andb_true_r. apply andb_comm.
Qed.

(** [input.trim()] is the empty string exactly for blank input. *)
Lemma trim_truthy s : truthy (trim s) = negb (blank s).
Proof.
  destruct (blank s) eqn:B; simpl.
  - unfold trim. rewrite (trimStart_blank s B). reflexivity.
  - destruct (trim s) as [| c r] eqn:T; [| reflexivity].
    exfalso. unfold trim, trimEnd in T.
    assert (H : trimStart (rev (trimStart s)) = []).
    { destruct (trimStart (rev (trimStart s))) as [| x l]; [reflexivity |].
      simpl in T. destruct (rev l); discriminate. }
    apply trimStart_nil_blank in H.
    rewrite blank_rev, blank_trimStart, B in H. discriminate.
Qed.

(** ** The persistence endpoint *)

Section RouteProperties.

Variable convertToDBMessages : option JSON -> option JSON -> Exn + JSON.
Variable saveMessages : JSON -> Exn + unit.

Let POST := Route.POST convertToDBMessages saveMessages.

(** What [destructure] returns is what the value holds. *)
Lemma destructure_cases v :
  (v = JNull /\ exists e, Route.destructure v = throw e) \/
  (v <> JNull /\ exists m c, Route.destructure v = ret (m, c)).
Proof.
  destruct v; simpl;
    try (right; split; [discriminate | eexists; eexists; reflexivity]).
  left. split; [reflexivity | eexists; reflexivity].
Qed.

(** The handler on a request whose body parsed to a value that can be
    destructured. *)
Lemma POST_destructured req v m c :
  Route.json req = inr v -> Route.destructure v = ret (m, c) ->
  POST req =
  match convertToDBMessages m c with
  | inl e => ([Route.save_log e], inr Route.failure_response)
  | inr records =>
      match saveMessages records with
      | inl e => ([SaveMessages records; Route.save_log e], inr Route.failure_response)
      | inr _ => ([SaveMessages records], inr Route.ok_response)
      end
  end.
Proof.
  intros Hj Hd. unfold POST, Route.POST. rewrite Hj. simpl.
  rewrite Hd. simpl.
  destruct (convertToDBMessages m c) as [e | records]; simpl; [reflexivity |].
  destruct (saveMessages records) as [e | []]; reflexivity.
Qed.

Lemma POST_unparsed req e :
  Route.json req = inl e -> POST req = ([Route.save_log e], inr Route.failure_response).
Proof. intros Hj. unfold POST, Route.POST. rewrite Hj. reflexivity. Qed.

Lemma POST_null req :
  Route.json req = inr JNull ->
  exists e, POST req = ([Route.save_log e], inr Route.failure_response).
Proof.
  intros Hj. unfold POST, Route.POST. rewrite Hj. simpl.
  eexists. reflexivity.
Qed.




End RouteProperties.


(** ** The chat session: loading flag and error notification *)

(** C8. [isLoading] is true exactly when the chat status is [submitted] or
    [streaming], or while the history query is still loading, and false in
    every other state. *)
Theorem isLoading_iff :
  forall (status : Chat.Status) (isLoadingChat : bool),
    Chat.isLoading status isLoadingChat = true <->
    (status = Chat.submitted \/ status = Chat.streaming \/ isLoadingChat = true).
Proof.
  intros status isLoadingChat. split.
  - destruct status, isLoadingChat; simpl; intros H;
      first [ discriminate H
            | left; reflexivity
            | right; left; reflexivity
            | right; right; reflexivity ].
  - intros [-> | [-> | ->]]; [reflexivity | reflexivity |].
    destruct status; reflexivity.
Qed.

(** C7. Every error the stream delivers raises one notification; its text
    is the error's message when that message is not empty, and the generic
    text 'An error occured, please try again later.' when it is. *)
Theorem onError_notification :
  forall error : Exn,
  exists text opts,
    Chat.useChat_onError error = ([ToastError text opts], inr tt) /\
    ((message error <> [] /\ text = message error) \/
     (message error = [] /\
      text = lit "An error occured, please try again later.")).
Proof.
  intros [n msg]. unfold Chat.useChat_onError, emit. simpl.
  destruct msg as [| c rest]; simpl.
  - eexists. eexists. split; [reflexivity |]. right. split; reflexivity.
  - eexists. eexists. split; [reflexivity |]. left.
    split; [discriminate | reflexivity].
Qed.

(** ** The chat session: submitting *)


Lemma handleFormSubmit_blank s :
  Chat.chatId s = None ->
  blank (Chat.input s) = true ->
  Chat.handleFormSubmit s =
  ([PreventDefault;
    HandleSubmit (Chat.generatedChatId s)
                 (Chat.useChat.body (Chat.useChat_options s))], inr tt).
Proof.
  intros Hc Hb. unfold Chat.handleFormSubmit, Chat.handleSubmit.
  rewrite trim_truthy, Hb, andb_false_r. unfold Chat.useChat_options at 1.
  rewrite Hc. reflexivity.
Qed.

(** C10. A submit in an unrouted conversation whose input is empty or
    white space only still calls [handleSubmit], under the synthesized id,
    and does not navigate. *)
Theorem blank_submit_does_not_navigate :
  forall s : Chat.Session,
    Chat.chatId s = None ->
    blank (Chat.input s) = true ->
    Chat.handleFormSubmit s =
      ([PreventDefault;
        HandleSubmit (Chat.generatedChatId s)
                     (Chat.useChat.body (Chat.useChat_options s))], inr tt) /\
    count is_submit (trace (Chat.handleFormSubmit s)) = 1 /\
    count is_push (trace (Chat.handleFormSubmit s)) = 0.
Proof.
  intros s Hc Hb. rewrite (handleFormSubmit_blank s Hc Hb).
  split; [reflexivity | split; reflexivity].
Qed.

Lemma blank_submit_does_not_navigate_witness :
  let s := {| Chat.chatId := None;
              Chat.generatedChatId := lit "X";
              Chat.userId := lit "u";
              Chat.input := lit "   ";
              Chat.selectedModel := lit "m";
              Chat.mcpServersForApi := JArr [] |} in
  count is_push (trace (Chat.handleFormSubmit s)) = 0.
Proof.
  intros s.
  destruct (blank_submit_does_not_navigate s eq_refl eq_refl) as (_ & _ & H).
  exact H.
Defined.

(** ** The history query *)

Section HistoryProperties.

Variable convertToUIMessages : list Chat.DBMessage -> list Chat.UIMessage.
Variables (chatId userId : jsstring).
Hypothesis chatId_given : truthy chatId = true.
Hypothesis userId_given : truthy userId = true.

(** The query function once [fetch] has resolved to [r]. *)
Lemma queryFn_resolved env r :
  Chat.response env = inr r ->
  Chat.queryFn (Some chatId) userId env =
  ([Chat.history_request chatId userId],
   if negb (Chat.ok r) then
     if N.eqb (Chat.status r) 404 then
       inr (Some {| Chat.id := chatId;
                    Chat.messages := Some [];
                    Chat.createdAt := Chat.now1 env;
                    Chat.updatedAt := Chat.now2 env |})
     else inl (Error "Failed to load chat")
   else Chat.json r).
Proof.
  intros Hr. unfold Chat.queryFn. simpl truthy_opt.
  rewrite chatId_given, userId_given. simpl. rewrite chatId_given, Hr. simpl.
  destruct (Chat.ok r); simpl.
  - destruct (Chat.json r); reflexivity.
  - destruct (N.eqb (Chat.status r) 404); reflexivity.
Qed.

Lemma not_found_not_ok r : Chat.status r = 404%N -> Chat.ok r = false.
Proof. intros H. unfold Chat.ok. rewrite H. reflexivity. Qed.

Lemma queryFn_not_found env r :
  Chat.response env = inr r -> Chat.status r = 404%N ->
  Chat.queryFn (Some chatId) userId env =
  ([Chat.history_request chatId userId],
   inr (Some {| Chat.id := chatId;
                Chat.messages := Some [];
                Chat.createdAt := Chat.now1 env;
                Chat.updatedAt := Chat.now2 env |})).
Proof.
  intros Hr H404. rewrite (queryFn_resolved env Hr).
  rewrite (not_found_not_ok r H404), H404. reflexivity.
Qed.

Lemma queryFn_failed env r :
  Chat.response env = inr r -> Chat.ok r = false -> Chat.status r <> 404%N ->
  Chat.queryFn (Some chatId) userId env =
  ([Chat.history_request chatId userId], inl (Error "Failed to load chat")).
Proof.
  intros Hr Hok Hs. rewrite (queryFn_resolved env Hr), Hok. simpl.
  destruct (N.eqb_spec (Chat.status r) 404); [contradiction | reflexivity].
Qed.

Lemma useQuery_enabled env :
  Chat.useQuery (Some chatId) userId env =
  Chat.fetchQuery Chat.retry (Some chatId) userId env 0.
Proof.
  unfold Chat.useQuery, Chat.enabled. simpl.
  rewrite chatId_given, userId_given. reflexivity.
Qed.

(** A conversation that exists and holds no messages opens empty as
    well. *)
Lemma stored_empty_history env r d :
  Chat.response (env 0) = inr r -> Chat.ok r = true ->
  Chat.json r = inr (Some d) -> Chat.messages d = Some [] ->
  Chat.error (snd (Chat.useQuery (Some chatId) userId env)) = None /\
  Chat.initialMessages convertToUIMessages
    (Chat.data (snd (Chat.useQuery (Some chatId) userId env))) = [].
Proof.
  intros Hr Hok Hj Hm. rewrite useQuery_enabled. simpl.
  rewrite (queryFn_resolved (env 0) Hr), Hok, Hj. simpl.
  rewrite Hm. split; reflexivity.
Qed.

End HistoryProperties.

(** C3. A history fetch answered with status 404 makes the query function
    return the synthetic empty history
    [{ id: chatId, messages: [], createdAt, updatedAt }] and throw nothing:
    the query settles with that payload and no error, nothing is logged or
    notified, and the initial message list is empty. *)
Theorem not_found_is_empty_history :
  forall (convertToUIMessages : list Chat.DBMessage -> list Chat.UIMessage)
         (chatId userId : jsstring) (env : nat -> Chat.Attempt)
         (r : Chat.Response),
    truthy chatId = true ->
    truthy userId = true ->
    Chat.response (env 0) = inr r ->
    Chat.status r = 404%N ->
    let empty := {| Chat.id := chatId;
                    Chat.messages := Some [];
                    Chat.createdAt := Chat.now1 (env 0);
                    Chat.updatedAt := Chat.now2 (env 0) |} in
    let q := snd (Chat.useQuery (Some chatId) userId env) in
    outcome (Chat.queryFn (Some chatId) userId (env 0)) = inr (Some empty) /\
    Chat.data q = Some empty /\
    Chat.error q = None /\
    trace (Chat.errorEffect (Chat.error q)) = [] /\
    Chat.initialMessages convertToUIMessages (Chat.data q) = [].
Proof.
  intros conv chatId userId env r Hc Hu Hr H404 empty q.
  assert (Hq : q = {| Chat.data := Some empty;
                      Chat.isLoadingChat := false;
                      Chat.error := None |}).
  { subst q. rewrite (useQuery_enabled chatId userId Hc Hu). simpl.
    rewrite (queryFn_not_found chatId userId Hc Hu (env 0) Hr H404). reflexivity. }
  split.
  - rewrite (queryFn_not_found chatId userId Hc Hu (env 0) Hr H404). reflexivity.
  - rewrite Hq. repeat split.
Qed.

Lemma not_found_is_empty_history_witness :
  let env := fun _ : nat =>
               {| Chat.response := inr {| Chat.status := 404;
                                          Chat.json := inl (Error "no body") |};
                  Chat.now1 := lit "2025-01-01T00:00:00.000Z";
                  Chat.now2 := lit "2025-01-01T00:00:00.001Z" |} in
  Chat.data (snd (Chat.useQuery (Some (lit "Y")) (lit "u") env)) =
    Some {| Chat.id := lit "Y";
            Chat.messages := Some [];
            Chat.createdAt := lit "2025-01-01T00:00:00.000Z";
            Chat.updatedAt := lit "2025-01-01T00:00:00.001Z" |}.
Proof.
  intros env.
  destruct (not_found_is_empty_history (fun _ => []) (lit "Y") (lit "u") env
              eq_refl eq_refl eq_refl eq_refl) as (_ & H & _).
  exact H.
Defined.

(** ** The tool-use loop *)

Section LoopProperties.

Import CompletionEngine.

Variable exec : jsstring -> JSON -> JSON.

(** The loop never takes more steps than it was allowed. *)
Lemma loop_steps_le model n : forall h done,
  done <= steps (loop n model exec h done) <= done + n.
Proof.
  induction n as [| k IH]; intros h done; simpl; [lia |].
  destruct (model h) as [text | calls | error]; simpl; try lia.
  specialize (IH (h ++ call_parts calls ++ result_parts exec calls) (S done)).
  lia.
Qed.

(** A model that only ever requests tools runs the loop to its ceiling,
    where it stops with the history extended, not with an error. *)
Lemma loop_truncates model n :
  (forall h, is_terminal (model h) = false) ->
  forall h done,
    ending (loop n model exec h done) = Truncated /\
    steps (loop n model exec h done) = done + n /\
    exists more, history (loop n model exec h done) = h ++ more.
Proof.
  intros Hnever. induction n as [| k IH]; intros h done; simpl.
  - repeat split; [lia | exists []; rewrite app_nil_r; reflexivity].
  - specialize (Hnever h).
    destruct (model h) as [text | calls | error]; simpl in Hnever;
      try discriminate.
    destruct (IH (h ++ call_parts calls ++ result_parts exec calls) (S done))
      as (He & Hs & more & Hh).
    repeat split; [exact He | lia |].
    exists ((call_parts calls ++ result_parts exec calls) ++ more).
    rewrite Hh, <- !app_assoc. reflexivity.
Qed.

End LoopProperties.

(** ** The streaming request *)

Section RequestProperties.

Variable JSON_parse : option jsstring -> Exn + JSON.
Variable initializeMCPClients :
  option JSON -> option Chat.AbortSignal -> Exn + Chat.MCPClientManager.
Variable persist : JSON -> Exn + Route.NextResponse.

Let customFetch := Chat.customFetch JSON_parse initializeMCPClients persist.
Let serve := Chat.serve JSON_parse initializeMCPClients persist.

Lemma prop_pure v key : trace (Chat.prop v key) = [].
Proof. destruct v; reflexivity. Qed.

Lemma persist_body_pure m messages :
  trace (Chat.persist_body m messages) = [].
Proof. destruct m; reflexivity. Qed.


(** [onFinish] always returns, and ends with the one cleanup it makes;
    before it there is at most the POST and a log entry. *)
Lemma onFinish_shape m messages :
  exists pre,
    Chat.onFinish persist m messages = (pre ++ [Cleanup], inr tt) /\
    count is_cleanup pre = 0 /\ count is_toast pre = 0.
Proof.
  unfold Chat.onFinish.
  pose proof (persist_body_pure m messages) as Ht.
  destruct (Chat.persist_body m messages) as [t [e | body]];
    simpl in Ht; subst t; simpl.
  - eexists [_]. repeat split.
  - destruct (persist body) as [e | resp]; simpl.
    + eexists [_; _]. repeat split.
    + eexists [_]. repeat split.
Qed.

Lemma customFetch_pure options : trace (customFetch options) = [].
Proof.
  unfold customFetch, Chat.customFetch.
  destruct (JSON_parse _) as [e | m]; [reflexivity |].
  destruct m; simpl; try reflexivity;
    destruct (initializeMCPClients _ _); reflexivity.
Qed.

(** The stream [customFetch] sets up. *)
Lemma customFetch_stream options stream :
  outcome (customFetch options) = inr stream ->
  Chat.streamText.maxSteps stream = 20 /\
  Chat.streamText.onError stream = Chat.onError /\
  exists m, Chat.streamText.onFinish stream = Chat.onFinish persist m.
Proof.
  unfold customFetch, Chat.customFetch.
  destruct (JSON_parse _) as [e | m]; [discriminate |].
  destruct m; simpl; try discriminate;
    destruct (initializeMCPClients _ _); simpl; try discriminate;
    intros H; injection H as <-; simpl;
    (split; [reflexivity | split; [reflexivity | eexists; reflexivity]]).
Qed.

(** Every [onFinish] callback releases once, and nothing else does. *)
Lemma deliver_cleanups stream calls :
  Chat.streamText.onError stream = Chat.onError ->
  (exists m, Chat.streamText.onFinish stream = Chat.onFinish persist m) ->
  outcome (Chat.streamText.deliver stream calls) = inr tt /\
  count is_cleanup (trace (Chat.streamText.deliver stream calls)) =
  length (filter Chat.streamText.is_finish calls).
Proof.
  intros HE [m HF]. induction calls as [| c rest [IHo IHc]].
  - split; reflexivity.
  - destruct c as [messages | error]; simpl.
    + rewrite HF.
      destruct (onFinish_shape m messages) as (pre & Hsh & Hc & _).
      assert (Ho : outcome (Chat.onFinish persist m messages) = inr tt)
        by (rewrite Hsh; reflexivity).
      rewrite (outcome_bind _ _ Ho), (trace_bind _ _ Ho), count_app, IHc.
      split; [exact IHo |].
      rewrite Hsh. unfold trace at 1. simpl fst.
      rewrite count_app, Hc. reflexivity.
    + rewrite HE.
      assert (Ho : outcome (Chat.onError error) = inr tt) by reflexivity.
      rewrite (outcome_bind _ _ Ho), (trace_bind _ _ Ho), count_app, IHc.
      split; [exact IHo | reflexivity].
Qed.

Lemma serve_cleanups options stream calls :
  outcome (customFetch options) = inr stream ->
  count is_cleanup (trace (serve options calls)) =
  length (filter Chat.streamText.is_finish calls).
Proof.
  intros Hs. destruct (customFetch_stream options Hs) as (_ & HE & HF).
  unfold serve, Chat.serve. fold customFetch.
  rewrite (trace_bind _ _ Hs), customFetch_pure. simpl.
  apply (deliver_cleanups stream calls HE HF).
Qed.

(** A stream that reports an error and still finishes releases once. *)
Lemma error_then_finish_releases_once options stream error messages :
  outcome (customFetch options) = inr stream ->
  count is_cleanup
        (trace (serve options [Chat.streamText.OnError error;
                               Chat.streamText.OnFinish messages])) = 1.
Proof. intros Hs. rewrite (serve_cleanups options _ Hs). reflexivity. Qed.

End RequestProperties.

(** C1. The claim is that every request releases its tool connections
    exactly once, however it ends.  The code releases them in [onFinish]
    only: a request whose tool connections were opened calls [cleanup] once
    for each [onFinish] callback of its stream, so once when the stream
    completes, and not at all when the model call fails or the request is
    cancelled. *)
Theorem cleanup_only_on_finish :
  forall (JSON_parse : option jsstring -> Exn + JSON)
         (initializeMCPClients :
            option JSON -> option Chat.AbortSignal -> Exn + Chat.MCPClientManager)
         (persist : JSON -> Exn + Route.NextResponse)
         (options : option Chat.RequestInit)
         (stream : Chat.streamText.Options),
    outcome (Chat.customFetch JSON_parse initializeMCPClients persist options)
      = inr stream ->
    let cleanups e :=
      count is_cleanup
            (trace (Chat.request JSON_parse initializeMCPClients persist
                                 options e)) in
    (forall calls,
        count is_cleanup
              (trace (Chat.serve JSON_parse initializeMCPClients persist
                                 options calls))
        = length (filter Chat.streamText.is_finish calls)) /\
    (forall messages, cleanups (Chat.streamText.Completed messages) = 1) /\
    (forall error, cleanups (Chat.streamText.Failed error) = 0) /\
    cleanups Chat.streamText.Cancelled = 0.
Proof.
  intros parse init persist options stream Hs cleanups.
  pose proof (fun calls => serve_cleanups parse init persist options calls Hs) as H.
  split; [exact H |]. subst cleanups. unfold Chat.request.
  split; [| split]; intros; rewrite H; reflexivity.
Qed.

Lemma cleanup_only_on_finish_witness :
  let parse := fun _ : option jsstring =>
                 inr (JObj [(lit "chatId", JStr (lit "X"));
                            (lit "mcpServers", JArr [])]) in
  let init := fun (_ : option JSON) (_ : option Chat.AbortSignal) =>
                inr {| Chat.tools := JObj [] |} in
  let persist := fun _ : JSON => inr Route.ok_response in
  let options := Some {| Chat.body := Some (lit "{}"); Chat.signal := None |} in
  count is_cleanup
        (trace (Chat.request parse init persist options
                             (Chat.streamText.Failed (Error "model call failed"))))
  = 0.
Proof.
  intros parse init persist options.
  destruct (cleanup_only_on_finish parse init persist options eq_refl)
    as (_ & _ & H & _).
  exact (H (Error "model call failed")).
Defined.



(* ===================================================================== *)
(** * Further properties of the code *)
(* ===================================================================== *)

(** ** Submitting, for every session *)

Lemma handleFormSubmit_trace s :
  Chat.handleFormSubmit s =
  (PreventDefault
     :: HandleSubmit (Chat.useChat.id (Chat.useChat_options s))
                     (Chat.useChat.body (Chat.useChat_options s))
     :: (if navigates s
         then [RouterPush (lit "/chat/" ++ Chat.generatedChatId s)]
         else []),
   inr tt).
Proof.
  unfold Chat.handleFormSubmit, Chat.handleSubmit, navigates.
  rewrite trim_truthy.
  destruct (negb (truthy_opt (Chat.chatId s)) && truthy (Chat.generatedChatId s)
            && negb (blank (Chat.input s)))%bool; reflexivity.
Qed.

(** When the handler navigates, the hook runs under the generated id. *)
Lemma navigates_id s :
  navigates s = true ->
  Chat.useChat.id (Chat.useChat_options s) = Chat.generatedChatId s.
Proof.
  unfold navigates. intros H.
  apply andb_prop in H as [H _]. apply andb_prop in H as [H _].
  simpl. destruct (Chat.chatId s) as [c |]; [| reflexivity].
  simpl in *. destruct (truthy c); [discriminate | reflexivity].
Qed.

(** X1. Whatever the state of the session, the submit handler first
    prevents the default, then calls [handleSubmit] exactly once, and
    navigates at most once, as its last step; a navigation always goes to
    [/chat/<id>] for the very id the request was submitted under, which is
    also the [chatId] in the request body. *)
Theorem handleFormSubmit_shape :
  forall s : Chat.Session,
  exists id props rest,
    Chat.handleFormSubmit s =
      (PreventDefault :: HandleSubmit id (JObj props) :: rest, inr tt) /\
    assoc (lit "chatId") props = Some (JStr id) /\
    (rest = [] \/ rest = [RouterPush (lit "/chat/" ++ id)]) /\
    count is_submit (trace (Chat.handleFormSubmit s)) = 1.
Proof.
  intros s. rewrite handleFormSubmit_trace.
  exists (Chat.useChat.id (Chat.useChat_options s)).
  eexists. eexists. split; [reflexivity |].
  split; [reflexivity |]. split.
  - destruct (navigates s) eqn:N; [right | left; reflexivity].
    rewrite (navigates_id s N). reflexivity.
  - destruct (navigates s); reflexivity.
Qed.

(** X2. The handler navigates exactly when the conversation has no route
    id, an id has been generated, and the input is not blank. *)
Theorem handleFormSubmit_navigates_iff :
  forall s : Chat.Session,
    count is_push (trace (Chat.handleFormSubmit s)) = 1 <->
    (truthy_opt (Chat.chatId s) = false /\
     truthy (Chat.generatedChatId s) = true /\
     blank (Chat.input s) = false).
Proof.
  intros s. rewrite handleFormSubmit_trace. unfold navigates.
  destruct (truthy_opt (Chat.chatId s)), (truthy (Chat.generatedChatId s)),
    (blank (Chat.input s)); simpl; split;
    first [ intros H; discriminate H
          | intros (A & B & C); discriminate
          | intros _; repeat split ].
Qed.

(** X3. In a routed conversation the handler never navigates: whatever
    the input and the generated id, it submits under the route id and does
    nothing else. *)
Theorem routed_submit_never_navigates :
  forall (s : Chat.Session) (c : jsstring),
    Chat.chatId s = Some c ->
    truthy c = true ->
    exists body,
      Chat.handleFormSubmit s = ([PreventDefault; HandleSubmit c body], inr tt).
Proof.
  intros s c Hc Ht. rewrite handleFormSubmit_trace. unfold navigates.
  simpl. rewrite !Hc. simpl. rewrite !Ht. simpl. eexists. reflexivity.
Qed.

Lemma routed_submit_never_navigates_witness :
  exists body,
    Chat.handleFormSubmit
      {| Chat.chatId := Some (lit "Y");
         Chat.generatedChatId := lit "X";
         Chat.userId := lit "u";
         Chat.input := lit "hello";
         Chat.selectedModel := lit "m";
         Chat.mcpServersForApi := JArr [] |}
    = ([PreventDefault; HandleSubmit (lit "Y") body], inr tt).
Proof.
  exact (routed_submit_never_navigates
           {| Chat.chatId := Some (lit "Y");
              Chat.generatedChatId := lit "X";
              Chat.userId := lit "u";
              Chat.input := lit "hello";
              Chat.selectedModel := lit "m";
              Chat.mcpServersForApi := JArr [] |}
           eq_refl eq_refl).
Defined.

(** X4. A submit that comes before the id has been generated (no route
    id, generated id still the empty string) is passed to [handleSubmit]
    under the empty id, with the empty string as the body's [chatId], and
    there is no navigation, whatever the input. *)
Theorem submit_before_id_is_generated :
  forall s : Chat.Session,
    Chat.chatId s = None ->
    Chat.generatedChatId s = [] ->
    exists props,
      Chat.handleFormSubmit s =
        ([PreventDefault; HandleSubmit [] (JObj props)], inr tt) /\
      assoc (lit "chatId") props = Some (JStr []).
Proof.
  intros s Hc Hg. rewrite handleFormSubmit_trace. unfold navigates.
  simpl. rewrite !Hc, !Hg. simpl. eexists. split; reflexivity.
Qed.

Lemma submit_before_id_is_generated_witness :
  exists props,
    Chat.handleFormSubmit
      {| Chat.chatId := None;
         Chat.generatedChatId := [];
         Chat.userId := lit "u";
         Chat.input := lit "hello";
         Chat.selectedModel := lit "m";
         Chat.mcpServersForApi := JArr [] |}
    = ([PreventDefault; HandleSubmit [] (JObj props)], inr tt) /\
    assoc (lit "chatId") props = Some (JStr []).
Proof.
  exact (submit_before_id_is_generated
           {| Chat.chatId := None;
              Chat.generatedChatId := [];
              Chat.userId := lit "u";
              Chat.input := lit "hello";
              Chat.selectedModel := lit "m";
              Chat.mcpServersForApi := JArr [] |}
           eq_refl eq_refl).
Defined.

(** ** The id effect *)

(** X5. Once the id effect has run with a non-empty generated id, the
    hook runs under a non-empty id in every session: the route id where
    there is one (the effect then changes nothing), the generated id
    otherwise; and a first submit with input that is not blank goes out
    under the generated id and navigates to [/chat/<generated id>]. *)
Theorem generated_id_effect :
  forall (nanoid : jsstring) (s : Chat.Session),
    truthy nanoid = true ->
    let s' := Chat.generatedChatIdEffect nanoid s in
    truthy (Chat.useChat.id (Chat.useChat_options s')) = true /\
    (truthy_opt (Chat.chatId s) = true -> s' = s) /\
    (truthy_opt (Chat.chatId s) = false ->
     Chat.useChat.id (Chat.useChat_options s') = nanoid /\
     (blank (Chat.input s) = false ->
      exists body,
        Chat.handleFormSubmit s' =
          ([PreventDefault; HandleSubmit nanoid body;
            RouterPush (lit "/chat/" ++ nanoid)], inr tt))).
Proof.
  intros nanoid s Hn s'. subst s'. unfold Chat.generatedChatIdEffect.
  destruct (truthy_opt (Chat.chatId s)) eqn:Hc; simpl.
  - split; [| split; [reflexivity | discriminate]].
    destruct (Chat.chatId s) as [c |]; simpl in *; [| discriminate].
    rewrite Hc. exact Hc.
  - assert (Hid : or_else (Chat.chatId s) nanoid = nanoid).
    { destruct (Chat.chatId s) as [c |]; simpl in *; [| reflexivity].
      rewrite Hc. reflexivity. }
    rewrite Hid. split; [exact Hn |]. split; [discriminate |].
    intros _. split; [reflexivity |]. intros Hb.
    rewrite handleFormSubmit_trace. unfold navigates. simpl.
    rewrite Hc, Hn, Hb, Hid. simpl. eexists. reflexivity.
Qed.

Lemma generated_id_effect_witness :
  truthy (Chat.useChat.id
            (Chat.useChat_options
               (Chat.generatedChatIdEffect (lit "V1StGXR8_Z5jdHi6B-myT")
                  {| Chat.chatId := None;
                     Chat.generatedChatId := [];
                     Chat.userId := lit "u";
                     Chat.input := lit "hello";
                     Chat.selectedModel := lit "m";
                     Chat.mcpServersForApi := JArr [] |}))) = true.
Proof.
  exact (proj1 (generated_id_effect (lit "V1StGXR8_Z5jdHi6B-myT")
                  {| Chat.chatId := None;
                     Chat.generatedChatId := [];
                     Chat.userId := lit "u";
                     Chat.input := lit "hello";
                     Chat.selectedModel := lit "m";
                     Chat.mcpServersForApi := JArr [] |}
                  eq_refl)).
Defined.

(** ** The error notification *)

(** X6. The notification raised for a stream error never has an empty
    text, and is always placed top-center with rich colors. *)
Theorem onError_text_never_empty :
  forall error : Exn,
  exists text,
    Chat.useChat_onError error =
      ([ToastError text (Some {| position := lit "top-center";
                                 richColors := true |})], inr tt) /\
    text <> [].
Proof.
  intros [n msg]. unfold Chat.useChat_onError, emit. simpl.
  destruct msg as [| c rest]; simpl; eexists; (split; [reflexivity |]);
    discriminate.
Qed.

(** ** The history query, for every answer of the network *)

(** The settled query is never loading, and never holds both an error and
    data. *)
Lemma fetchQuery_settled retries chatId userId env : forall attempt,
  let q := snd (Chat.fetchQuery retries chatId userId env attempt) in
  Chat.isLoadingChat q = false /\
  (Chat.error q <> None -> Chat.data q = None).
Proof.
  induction retries as [| k IH]; intros attempt; simpl.
  - destruct (Chat.queryFn chatId userId (env attempt)) as [t [e | d]]; simpl.
    + split; reflexivity.
    + split; [reflexivity | intros H; contradiction H; reflexivity].
  - destruct (Chat.queryFn chatId userId (env attempt)) as [t [e | d]]; simpl.
    + specialize (IH (S attempt)).
      destruct (Chat.fetchQuery k chatId userId env (S attempt)) as [t' q'].
      exact IH.
    + split; [reflexivity | intros H; contradiction H; reflexivity].
Qed.

Lemma useQuery_settled chatId userId env :
  let q := snd (Chat.useQuery chatId userId env) in
  Chat.isLoadingChat q = false /\
  (Chat.error q <> None -> Chat.data q = None).
Proof.
  unfold Chat.useQuery. destruct (Chat.enabled chatId userId).
  - apply fetchQuery_settled.
  - simpl. split; [reflexivity | intros H; contradiction H; reflexivity].
Qed.

Section QueryProperties.

Variables (chatId userId : jsstring).
Hypothesis chatId_given : truthy chatId = true.
Hypothesis userId_given : truthy userId = true.

Let request := Chat.history_request chatId userId.
Let query := Chat.queryFn (Some chatId) userId.

Lemma queryFn_rejected env e :
  Chat.response env = inl e -> query env = ([request], inl e).
Proof.
  intros Hr. unfold query, Chat.queryFn. simpl truthy_opt.
  rewrite chatId_given, userId_given. simpl. rewrite chatId_given, Hr.
  reflexivity.
Qed.

(** An enabled query function issues its one GET, whatever comes back. *)
Lemma queryFn_one_request env : trace (query env) = [request].
Proof.
  destruct (Chat.response env) as [e | r] eqn:Hr.
  - rewrite (queryFn_rejected env Hr). reflexivity.
  - unfold query.
    rewrite (queryFn_resolved chatId userId chatId_given userId_given env Hr).
    reflexivity.
Qed.

Lemma query_eta env : query env = ([request], outcome (query env)).
Proof.
  pose proof (queryFn_one_request env) as H.
  destruct (query env) as [t o]. simpl in *. subst t. reflexivity.
Qed.

(** The query, unfolded over its two attempts. *)
Lemma useQuery_two_attempts env :
  Chat.useQuery (Some chatId) userId env =
  match outcome (query (env 0)) with
  | inr d => ([request],
              {| Chat.data := d; Chat.isLoadingChat := false;
                 Chat.error := None |})
  | inl _ =>
      match outcome (query (env 1)) with
      | inr d => ([request; request],
                  {| Chat.data := d; Chat.isLoadingChat := false;
                     Chat.error := None |})
      | inl e => ([request; request],
                  {| Chat.data := None; Chat.isLoadingChat := false;
                     Chat.error := Some e |})
      end
  end.
Proof.
  rewrite (useQuery_enabled chatId userId chatId_given userId_given).
  unfold Chat.retry. simpl. fold query.
  rewrite (query_eta (env 0)). simpl.
  destruct (outcome (query (env 0))) as [e0 | d0]; [| reflexivity].
  rewrite (query_eta (env 1)). simpl.
  destruct (outcome (query (env 1))) as [e1 | d1]; reflexivity.
Qed.

End QueryProperties.

(** X7. Without a route id or without a user id the history query is off:
    the query function, were it called, returns [null] without fetching,
    and the query settles with no request made, no data and no error. *)
Theorem query_disabled :
  forall (chatId : option jsstring) (userId : jsstring)
         (env : nat -> Chat.Attempt),
    truthy_opt chatId = false \/ truthy userId = false ->
    (forall attempt, Chat.queryFn chatId userId (env attempt) = ([], inr None)) /\
    Chat.useQuery chatId userId env =
      ([], {| Chat.data := None; Chat.isLoadingChat := false;
              Chat.error := None |}).
Proof.
  intros chatId userId env H.
  assert (Hg : (negb (truthy_opt chatId) || negb (truthy userId))%bool = true).
  { destruct H as [-> | ->]; [reflexivity | apply orb_true_r]. }
  assert (He : Chat.enabled chatId userId = false).
  { unfold Chat.enabled. destruct H as [-> | ->];
      [reflexivity | apply andb_false_r]. }
  split.
  - intros attempt. unfold Chat.queryFn. rewrite Hg. reflexivity.
  - unfold Chat.useQuery. rewrite He. reflexivity.
Qed.

Lemma query_disabled_witness :
  Chat.useQuery (Some (lit "Y")) []
                (fun _ => {| Chat.response := inl (Error "offline");
                             Chat.now1 := []; Chat.now2 := [] |})
  = ([], {| Chat.data := None; Chat.isLoadingChat := false;
            Chat.error := None |}).
Proof.
  exact (proj2 (query_disabled (Some (lit "Y")) []
                  (fun _ => {| Chat.response := inl (Error "offline");
                               Chat.now1 := []; Chat.now2 := [] |})
                  (or_intror eq_refl))).
Defined.

(** X8. An enabled history query sends one GET to [/api/chats/<chatId>]
    with the user id in the [x-user-id] header when the first attempt
    returns, and the same GET twice when the first attempt throws; it never
    sends anything else, and never a third request. *)
Theorem query_requests :
  forall (chatId userId : jsstring) (env : nat -> Chat.Attempt),
    truthy chatId = true ->
    truthy userId = true ->
    let get := HttpGet (lit "/api/chats/" ++ chatId) [(lit "x-user-id", userId)] in
    fst (Chat.useQuery (Some chatId) userId env) =
    if returns (Chat.queryFn (Some chatId) userId (env 0))
    then [get] else [get; get].
Proof.
  intros chatId userId env Hc Hu get.
  rewrite (useQuery_two_attempts chatId userId Hc Hu env). unfold returns.
  destruct (outcome (Chat.queryFn (Some chatId) userId (env 0)));
    [| reflexivity].
  destruct (outcome (Chat.queryFn (Some chatId) userId (env 1))); reflexivity.
Qed.

Lemma query_requests_witness :
  fst (Chat.useQuery (Some (lit "Y")) (lit "u")
         (fun _ => {| Chat.response := inl (TypeError "Failed to fetch");
                      Chat.now1 := []; Chat.now2 := [] |}))
  = [HttpGet (lit "/api/chats/Y") [(lit "x-user-id", lit "u")];
     HttpGet (lit "/api/chats/Y") [(lit "x-user-id", lit "u")]].
Proof.
  exact (query_requests (lit "Y") (lit "u")
           (fun _ => {| Chat.response := inl (TypeError "Failed to fetch");
                        Chat.now1 := []; Chat.now2 := [] |})
           eq_refl eq_refl).
Defined.

(** X9. An enabled history query reports an error exactly when both the
    first attempt and its retry throw, and the error it reports is the one
    the retry threw. *)
Theorem query_error_iff :
  forall (chatId userId : jsstring) (env : nat -> Chat.Attempt) (e : Exn),
    truthy chatId = true ->
    truthy userId = true ->
    (Chat.error (snd (Chat.useQuery (Some chatId) userId env)) = Some e <->
     (returns (Chat.queryFn (Some chatId) userId (env 0)) = false /\
      outcome (Chat.queryFn (Some chatId) userId (env 1)) = inl e)).
Proof.
  intros chatId userId env e Hc Hu.
  rewrite (useQuery_two_attempts chatId userId Hc Hu env). unfold returns.
  destruct (outcome (Chat.queryFn (Some chatId) userId (env 0))); simpl.
  - destruct (outcome (Chat.queryFn (Some chatId) userId (env 1))); simpl.
    + split; [intros H; injection H as ->; split; reflexivity |].
      intros [_ H]. injection H as ->. reflexivity.
    + split; [discriminate | intros [_ H]; discriminate H].
  - split; [discriminate | intros [H _]; discriminate H].
Qed.

Lemma query_error_iff_witness :
  Chat.error
    (snd (Chat.useQuery (Some (lit "Y")) (lit "u")
            (fun i => {| Chat.response :=
                           match i with
                           | 0 => inl (TypeError "Failed to fetch")
                           | _ => inr {| Chat.status := 503;
                                         Chat.json := inl (Error "no body") |}
                           end;
                         Chat.now1 := []; Chat.now2 := [] |})))
  = Some (Error "Failed to load chat").
Proof.
  apply (proj2 (query_error_iff (lit "Y") (lit "u")
                  (fun i => {| Chat.response :=
                                 match i with
                                 | 0 => inl (TypeError "Failed to fetch")
                                 | _ => inr {| Chat.status := 503;
                                               Chat.json := inl (Error "no body") |}
                                 end;
                               Chat.now1 := []; Chat.now2 := [] |})
                  (Error "Failed to load chat") eq_refl eq_refl)).
  split; reflexivity.
Defined.

(** X10. A history query whose first attempt throws and whose retry
    returns settles with the data of the retry and no error: nothing is
    logged, no notification is raised. *)
Theorem query_recovers_on_retry :
  forall (chatId userId : jsstring) (env : nat -> Chat.Attempt)
         (e : Exn) (d : option Chat.ChatData),
    truthy chatId = true ->
    truthy userId = true ->
    outcome (Chat.queryFn (Some chatId) userId (env 0)) = inl e ->
    outcome (Chat.queryFn (Some chatId) userId (env 1)) = inr d ->
    let q := snd (Chat.useQuery (Some chatId) userId env) in
    Chat.data q = d /\ Chat.error q = None /\
    Chat.errorEffect (Chat.error q) = ([], inr tt).
Proof.
  intros chatId userId env e d Hc Hu H0 H1 q. subst q.
  rewrite (useQuery_two_attempts chatId userId Hc Hu env), H0, H1.
  repeat split.
Qed.

Lemma query_recovers_on_retry_witness :
  let stored := {| Chat.id := lit "Y"; Chat.messages := Some [];
                   Chat.createdAt := lit "t"; Chat.updatedAt := lit "t" |} in
  let env := fun i : nat =>
               {| Chat.response :=
                    match i with
                    | 0 => inr {| Chat.status := 500;
                                  Chat.json := inl (Error "no body") |}
                    | _ => inr {| Chat.status := 200;
                                  Chat.json := inr (Some stored) |}
                    end;
                  Chat.now1 := []; Chat.now2 := [] |} in
  Chat.data (snd (Chat.useQuery (Some (lit "Y")) (lit "u") env)) = Some stored.
Proof.
  intros stored env.
  exact (proj1 (query_recovers_on_retry (lit "Y") (lit "u") env
                  eq_refl eq_refl eq_refl eq_refl)).
Defined.

(** X12. While the history is loading the message layout is shown and the
    form is marked loading, whatever the chat status; once the query has
    settled with no messages to show (not found, failed, or disabled) and
    the chat is ready, the start screen is shown with the form not
    loading. *)
Theorem render_by_history_state :
  forall (convertToUIMessages : list Chat.DBMessage -> list Chat.UIMessage)
         (chatId : option jsstring) (userId : jsstring)
         (env : nat -> Chat.Attempt)
         (messages : list Chat.Message) (status : Chat.Status),
    let q := snd (Chat.useQuery chatId userId env) in
    (Chat.view (Chat.render messages status true) = Chat.Messages /\
     Chat.prop_isLoading (Chat.render messages status true) = true) /\
    (Chat.initialMessages convertToUIMessages (Chat.data q) = [] ->
     Chat.render (Chat.initialMessages convertToUIMessages (Chat.data q))
                 Chat.ready (Chat.isLoadingChat q)
     = {| Chat.view := Chat.ProjectOverview;
          Chat.prop_isLoading := false;
          Chat.prop_status := Chat.ready |}).
Proof.
  intros conv chatId userId env messages status q. split.
  - unfold Chat.render, Chat.isLoading. simpl.
    rewrite andb_false_r, orb_true_r. split; reflexivity.
  - intros H. rewrite H.
    destruct (useQuery_settled chatId userId env) as [Hl _]. fold q in Hl.
    rewrite Hl. reflexivity.
Qed.

Lemma render_by_history_state_witness :
  let env := fun _ : nat =>
               {| Chat.response := inr {| Chat.status := 500;
                                          Chat.json := inl (Error "no body") |};
                  Chat.now1 := []; Chat.now2 := [] |} in
  let q := snd (Chat.useQuery (Some (lit "Y")) (lit "u") env) in
  Chat.view (Chat.render (Chat.initialMessages (fun _ => []) (Chat.data q))
                         Chat.ready (Chat.isLoadingChat q))
  = Chat.ProjectOverview.
Proof.
  intros env q. subst q.
  rewrite (proj2 (render_by_history_state (fun _ => []) (Some (lit "Y"))
                    (lit "u") env [] Chat.ready) eq_refl).
  reflexivity.
Defined.

(** X13. An enabled query function throws in three cases only: [fetch]
    rejected (it throws the rejection), the status is neither a success nor
    404 (it throws "Failed to load chat"), or the status is a success and
    reading the body as JSON fails (it throws that failure). *)
Theorem queryFn_throws_iff :
  forall (chatId userId : jsstring) (env : Chat.Attempt) (e : Exn),
    truthy chatId = true ->
    truthy userId = true ->
    (outcome (Chat.queryFn (Some chatId) userId env) = inl e <->
     (Chat.response env = inl e \/
      (exists r, Chat.response env = inr r /\ Chat.ok r = false /\
                 Chat.status r <> 404%N /\ e = Error "Failed to load chat") \/
      (exists r, Chat.response env = inr r /\ Chat.ok r = true /\
                 Chat.json r = inl e))).
Proof.
  intros chatId userId env e Hc Hu.
  destruct (Chat.response env) as [e' | r] eqn:Hr.
  - rewrite (queryFn_rejected chatId userId Hc Hu env Hr). simpl. split.
    + intros H. left. injection H as ->. reflexivity.
    + intros [H | [(r & H & _) | (r & H & _)]];
        [injection H as ->; reflexivity | discriminate H | discriminate H].
  - rewrite (queryFn_resolved chatId userId Hc Hu env Hr). simpl.
    destruct (Chat.ok r) eqn:Hok; simpl.
    + split.
      * intros H. right. right. exists r. repeat split; assumption.
      * intros [H | [(r' & H & Hk & _) | (r' & H & _ & Hj)]];
          [discriminate H | |]; injection H as <-; [congruence | exact Hj].
    + destruct (N.eqb_spec (Chat.status r) 404) as [H404 | Hne]; split.
      * discriminate.
      * intros [H | [(r' & H & _ & Hs & _) | (r' & H & Hk & _)]];
          [discriminate H | |]; injection H as <-; [contradiction | congruence].
      * intros H. injection H as <-. right. left. exists r.
        repeat split; assumption.
      * intros [H | [(r' & H & _ & _ & ->) | (r' & H & Hk & _)]];
          [discriminate H | reflexivity |]. injection H as <-. congruence.
Qed.

Lemma queryFn_throws_iff_witness :
  outcome (Chat.queryFn (Some (lit "Y")) (lit "u")
             {| Chat.response :=
                  inr {| Chat.status := 200;
                         Chat.json := inl (Error "Unexpected end of JSON input") |};
                Chat.now1 := []; Chat.now2 := [] |})
  = inl (Error "Unexpected end of JSON input").
Proof.
  apply (proj2 (queryFn_throws_iff (lit "Y") (lit "u")
                  {| Chat.response :=
                       inr {| Chat.status := 200;
                              Chat.json := inl (Error "Unexpected end of JSON input") |};
                     Chat.now1 := []; Chat.now2 := [] |}
                  (Error "Unexpected end of JSON input") eq_refl eq_refl)).
  right. right. eexists. split; [reflexivity | split; reflexivity].
Defined.

(** X14. When the first attempt is answered with a success whose body
    holds stored messages, the initial message list is the converter's
    output for those messages, entry by entry and in the same order, with
    the id, role, content and parts of each kept. *)
Theorem stored_history_is_converted :
  forall (convertToUIMessages : list Chat.DBMessage -> list Chat.UIMessage)
         (chatId userId : jsstring) (env : nat -> Chat.Attempt)
         (r : Chat.Response) (d : Chat.ChatData)
         (m : Chat.DBMessage) (ms : list Chat.DBMessage),
    truthy chatId = true ->
    truthy userId = true ->
    Chat.response (env 0) = inr r ->
    Chat.ok r = true ->
    Chat.json r = inr (Some d) ->
    Chat.messages d = Some (m :: ms) ->
    let initial :=
      Chat.initialMessages convertToUIMessages
        (Chat.data (snd (Chat.useQuery (Some chatId) userId env))) in
    let converted := convertToUIMessages (m :: ms) in
    length initial = length converted /\
    map Chat.msg_id initial = map Chat.ui_id converted /\
    map Chat.msg_role initial = map Chat.ui_role converted /\
    map Chat.msg_content initial = map Chat.ui_content converted /\
    map Chat.msg_parts initial = map Chat.ui_parts converted.
Proof.
  intros conv chatId userId env r d m ms Hc Hu Hr Hok Hj Hm initial converted.
  assert (Hi : initial =
               map (fun msg => {| Chat.msg_id := Chat.ui_id msg;
                                  Chat.msg_role := Chat.ui_role msg;
                                  Chat.msg_content := Chat.ui_content msg;
                                  Chat.msg_parts := Chat.ui_parts msg |})
                   converted).
  { subst initial converted.
    rewrite (useQuery_two_attempts chatId userId Hc Hu env).
    rewrite (queryFn_resolved chatId userId Hc Hu (env 0) Hr), Hok, Hj.
    simpl. rewrite Hm. reflexivity. }
  rewrite Hi, length_map, !map_map. simpl.
  repeat split; reflexivity.
Qed.

Lemma stored_history_is_converted_witness :
  let m := {| Chat.db_id := lit "m1"; Chat.db_conversationId := lit "Y";
              Chat.db_role := lit "user"; Chat.db_content := JStr (lit "hello");
              Chat.db_parts := JArr []; Chat.db_createdAt := lit "t" |} in
  let d := {| Chat.id := lit "Y"; Chat.messages := Some [m];
              Chat.createdAt := lit "t"; Chat.updatedAt := lit "t" |} in
  let env := fun _ : nat =>
               {| Chat.response := inr {| Chat.status := 200;
                                          Chat.json := inr (Some d) |};
                  Chat.now1 := []; Chat.now2 := [] |} in
  let conv := map (fun x => {| Chat.ui_id := Chat.db_id x;
                               Chat.ui_role := Chat.db_role x;
                               Chat.ui_content := Chat.db_content x;
                               Chat.ui_parts := Chat.db_parts x;
                               Chat.ui_createdAt := Chat.db_createdAt x |}) in
  map Chat.msg_id
      (Chat.initialMessages conv
         (Chat.data (snd (Chat.useQuery (Some (lit "Y")) (lit "u") env))))
  = [lit "m1"].
Proof.
  intros m d env conv.
  destruct (stored_history_is_converted conv (lit "Y") (lit "u") env
              (m := m) (ms := []) eq_refl eq_refl eq_refl eq_refl eq_refl eq_refl)
    as (_ & H & _).
  rewrite H. reflexivity.
Defined.

(** ** The persistence endpoint, for every request *)

Section RouteTraces.

Variable convertToDBMessages : option JSON -> option JSON -> Exn + JSON.
Variable saveMessages : JSON -> Exn + unit.

Let POST := Route.POST convertToDBMessages saveMessages.

(** Destructuring a body that is not [null] reads its two properties. *)
Lemma destructure_own v :
  v <> JNull ->
  Route.destructure v = ret (Chat.own v "messages", Chat.own v "chatId").
Proof. destruct v; intros H; try reflexivity. contradiction H; reflexivity. Qed.

(** Every run of the handler, by its trace: either the save and the 200
    answer, or at most the save, then one log entry, and the 500 answer. *)
Lemma POST_runs req :
  (exists records,
      Route.converted convertToDBMessages req records /\
      POST req = ([SaveMessages records], inr Route.ok_response)) \/
  (exists e,
      (forall records, ~ Route.converted convertToDBMessages req records) /\
      POST req = ([Route.save_log e], inr Route.failure_response)) \/
  (exists records e,
      Route.converted convertToDBMessages req records /\
      POST req = ([SaveMessages records; Route.save_log e],
                  inr Route.failure_response)).
Proof.
  destruct (Route.json req) as [e | v] eqn:Hj.
  - right. left. exists e. split; [| apply POST_unparsed; exact Hj].
    intros records (v & m & c & Hp & _). unfold Route.parsed in Hp. congruence.
  - destruct (destructure_cases v) as [[-> [e He]] | [_ (m & c & Hd)]].
    + destruct (POST_null convertToDBMessages saveMessages req Hj) as [e' He'].
      right. left. exists e'. split; [| exact He'].
      intros records (v & m & c & Hp & Hd & _). unfold Route.parsed in Hp.
      rewrite Hj in Hp. injection Hp as <-. discriminate Hd.
    + unfold POST.
      rewrite (POST_destructured convertToDBMessages saveMessages req Hj Hd).
      destruct (convertToDBMessages m c) as [e | records] eqn:Hc.
      * right. left. exists e. split; [| reflexivity].
        intros records (v' & m' & c' & Hp & Hd' & Hc').
        unfold Route.parsed in Hp. rewrite Hj in Hp. injection Hp as <-.
        rewrite Hd in Hd'. injection Hd' as <- <-. congruence.
      * assert (Hconv : Route.converted convertToDBMessages req records)
          by (exists v, m, c; repeat split; assumption).
        destruct (saveMessages records) as [e | []].
        -- right. right. exists records, e. split; [exact Hconv | reflexivity].
        -- left. exists records. split; [exact Hconv | reflexivity].
Qed.

(** The converter's output for a request, when there is one, is unique. *)
Lemma converted_unique req r r' :
  Route.converted convertToDBMessages req r ->
  Route.converted convertToDBMessages req r' -> r = r'.
Proof.
  intros (v & m & c & Hp & Hd & Hc) (v' & m' & c' & Hp' & Hd' & Hc').
  unfold Route.parsed in *. rewrite Hp in Hp'. injection Hp' as <-.
  rewrite Hd in Hd'. injection Hd' as <- <-. congruence.
Qed.

End RouteTraces.

(** X15. The handler calls [saveMessages] at most once, and it calls it
    with given records exactly when the body parsed, could be destructured and
    [convertToDBMessages] returned those records: nothing is saved when
    parsing or conversion fails. *)
Theorem POST_saves_converted_only :
  forall (convertToDBMessages : option JSON -> option JSON -> Exn + JSON)
         (saveMessages : JSON -> Exn + unit) (req : Route.NextRequest),
    let t := trace (Route.POST convertToDBMessages saveMessages req) in
    count is_save t <= 1 /\
    (forall records,
        In (SaveMessages records) t <->
        Route.converted convertToDBMessages req records).
Proof.
  intros conv save req t. subst t.
  destruct (POST_runs conv save req)
    as [(r & Hc & ->) | [(e & Hn & ->) | (r & e & Hc & ->)]]; simpl.
  - split; [apply le_n |]. intros records. split.
    + intros [H | []]. injection H as <-. exact Hc.
    + intros H. left. f_equal. exact (converted_unique Hc H).
  - split; [apply le_0_n |]. intros records. split.
    + intros [H | []]. discriminate H.
    + intros H. destruct (Hn records H).
  - split; [apply le_n |]. intros records. split.
    + intros [H | [H | []]]; [| discriminate H]. injection H as <-. exact Hc.
    + intros H. left. f_equal. exact (converted_unique Hc H).
Qed.

(** X16. The handler answers with status 200 or 500 and nothing else; it
    writes exactly one log entry, the last thing before it answers, when
    the answer is 500, and writes none when the answer is 200. *)
Theorem POST_logs_exactly_failures :
  forall (convertToDBMessages : option JSON -> option JSON -> Exn + JSON)
         (saveMessages : JSON -> Exn + unit) (req : Route.NextRequest),
  exists t resp,
    Route.POST convertToDBMessages saveMessages req = (t, inr resp) /\
    ((Route.status resp = 200%N /\ count is_console_error t = 0) \/
     (Route.status resp = 500%N /\ count is_console_error t = 1 /\
      exists e, last t PreventDefault = Route.save_log e)).
Proof.
  intros conv save req.
  destruct (POST_runs conv save req)
    as [(r & _ & ->) | [(e & _ & ->) | (r & e & _ & ->)]];
    eexists; eexists; (split; [reflexivity |]).
  - left. split; reflexivity.
  - right. split; [reflexivity | split; [reflexivity |]].
    exists e. reflexivity.
  - right. split; [reflexivity | split; [reflexivity |]].
    exists e. reflexivity.
Qed.

(** X17. The handler reads two properties of the body and nothing more:
    two bodies, neither of them [null], with the same [messages] and the
    same [chatId] (an absent property and a body that is no object read as
    [undefined]) are handled alike, effect for effect. *)
Theorem POST_reads_messages_and_chatId :
  forall (convertToDBMessages : option JSON -> option JSON -> Exn + JSON)
         (saveMessages : JSON -> Exn + unit) (v v' : JSON),
    v <> JNull ->
    v' <> JNull ->
    Chat.own v "messages" = Chat.own v' "messages" ->
    Chat.own v "chatId" = Chat.own v' "chatId" ->
    Route.POST convertToDBMessages saveMessages {| Route.json := inr v |} =
    Route.POST convertToDBMessages saveMessages {| Route.json := inr v' |}.
Proof.
  intros conv save v v' Hv Hv' Hm Hc.
  rewrite (POST_destructured conv save {| Route.json := inr v |}
             eq_refl (destructure_own Hv)).
  rewrite (POST_destructured conv save {| Route.json := inr v' |}
             eq_refl (destructure_own Hv')).
  rewrite Hm, Hc. reflexivity.
Qed.

Lemma POST_reads_messages_and_chatId_witness :
  let conv := fun (m c : option JSON) =>
                match m with
                | Some x => @inr Exn JSON x
                | None => inl (TypeError "messages is undefined")
                end in
  let save := fun _ : JSON => @inr Exn unit tt in
  Route.POST conv save
    {| Route.json := inr (JObj [(lit "userId", JStr (lit "u"));
                                (lit "chatId", JStr (lit "X"));
                                (lit "messages", JArr [])]) |} =
  Route.POST conv save
    {| Route.json := inr (JObj [(lit "messages", JArr []);
                                (lit "chatId", JStr (lit "X"))]) |}.
Proof.
  intros conv save.
  apply (POST_reads_messages_and_chatId conv save);
    [discriminate | discriminate | reflexivity | reflexivity].
Defined.

(** ** The streaming request, stage by stage *)

Lemma JSON_null_dec (v : JSON) : {v = JNull} + {v <> JNull}.
Proof. destruct v; first [left; reflexivity | right; discriminate]. Qed.

Section RequestStages.

Variable JSON_parse : option jsstring -> Exn + JSON.
Variable initializeMCPClients :
  option JSON -> option Chat.AbortSignal -> Exn + Chat.MCPClientManager.
Variable persist : JSON -> Exn + Route.NextResponse.

Let customFetch := Chat.customFetch JSON_parse initializeMCPClients persist.
Let request := Chat.request JSON_parse initializeMCPClients persist.

Lemma prop_own v key : v <> JNull -> Chat.prop v key = ret (Chat.own v key).
Proof. destruct v; intros H; try reflexivity. contradiction H; reflexivity. Qed.

Lemma customFetch_unparsed options e :
  JSON_parse (Chat.body_of options) = inl e ->
  customFetch options = ([], inl e).
Proof.
  intros Hp. unfold customFetch, Chat.customFetch. fold (Chat.body_of options).
  rewrite Hp. reflexivity.
Qed.

Lemma customFetch_null options :
  JSON_parse (Chat.body_of options) = inr JNull ->
  customFetch options =
  ([], inl (TypeError "Cannot read properties of null (reading 'mcpServers')")).
Proof.
  intros Hp. unfold customFetch, Chat.customFetch. fold (Chat.body_of options).
  rewrite Hp. reflexivity.
Qed.

Lemma customFetch_parsed options m :
  JSON_parse (Chat.body_of options) = inr m -> m <> JNull ->
  customFetch options =
  match initializeMCPClients (Chat.own m "mcpServers")
                             (Chat.signal_of options) with
  | inl e => ([], inl e)
  | inr mcp =>
      ([], inr {| Chat.streamText.model := Chat.own m "selectedModel";
                  Chat.streamText.messages := Chat.own m "messages";
                  Chat.streamText.abortSignal := Chat.signal_of options;
                  Chat.streamText.tools := Chat.tools mcp;
                  Chat.streamText.maxSteps := 20;
                  Chat.streamText.experimental_transform := (5%N, lit "line");
                  Chat.streamText.onError := Chat.onError;
                  Chat.streamText.onFinish := Chat.onFinish persist m |})
  end.
Proof.
  intros Hp Hm. unfold customFetch, Chat.customFetch.
  fold (Chat.body_of options). fold (Chat.signal_of options).
  rewrite Hp. simpl. rewrite !(prop_own _ Hm). simpl.
  destruct (initializeMCPClients _ _) as [e | mcp]; reflexivity.
Qed.


End RequestStages.


(** X19. The stream [customFetch] sets up runs on the abort signal of the
    request, the same signal [initializeMCPClients] was given, with the
    tools that call resolved to and with the [messages] and [selectedModel]
    of the request body; its text is paced by line with a delay of 5 ms. *)
Theorem customFetch_stream_fields :
  forall (JSON_parse : option jsstring -> Exn + JSON)
         (initializeMCPClients :
            option JSON -> option Chat.AbortSignal -> Exn + Chat.MCPClientManager)
         (persist : JSON -> Exn + Route.NextResponse)
         (options : option Chat.RequestInit)
         (stream : Chat.streamText.Options),
    outcome (Chat.customFetch JSON_parse initializeMCPClients persist options)
      = inr stream ->
    exists m mcp,
      JSON_parse (Chat.body_of options) = inr m /\
      initializeMCPClients (Chat.own m "mcpServers") (Chat.signal_of options)
        = inr mcp /\
      Chat.streamText.abortSignal stream = Chat.signal_of options /\
      Chat.streamText.tools stream = Chat.tools mcp /\
      Chat.streamText.messages stream = Chat.own m "messages" /\
      Chat.streamText.model stream = Chat.own m "selectedModel" /\
      Chat.streamText.experimental_transform stream = (5%N, lit "line").
Proof.
  intros parse init persist options stream.
  destruct (parse (Chat.body_of options)) as [e | m] eqn:Hp.
  - rewrite (customFetch_unparsed parse init persist options Hp). discriminate.
  - destruct (JSON_null_dec m) as [-> | Hm].
    + rewrite (customFetch_null parse init persist options Hp). discriminate.
    + rewrite (customFetch_parsed parse init persist options Hp Hm).
      destruct (init _ _) as [e | mcp] eqn:Hi; [discriminate |].
      intros H. injection H as <-. exists m, mcp. repeat split. exact Hi.
Qed.

Lemma customFetch_stream_fields_witness :
  let parse := fun _ : option jsstring =>
                 @inr Exn JSON (JObj [(lit "messages", JArr []);
                                      (lit "selectedModel", JStr (lit "gpt"));
                                      (lit "mcpServers", JArr [])]) in
  let init := fun (_ : option JSON) (_ : option Chat.AbortSignal) =>
                @inr Exn Chat.MCPClientManager
                     {| Chat.tools := JObj [(lit "search", JObj [])] |} in
  let persist := fun _ : JSON => @inr Exn Route.NextResponse Route.ok_response in
  let options := Some {| Chat.body := Some (lit "{}");
                         Chat.signal := Some {| Chat.aborted := false |} |} in
  exists stream,
    outcome (Chat.customFetch parse init persist options) = inr stream /\
    Chat.streamText.abortSignal stream = Some {| Chat.aborted := false |} /\
    Chat.streamText.tools stream = JObj [(lit "search", JObj [])].
Proof.
  intros parse init persist options.
  eexists. split; [reflexivity |].
  destruct (customFetch_stream_fields parse init persist options eq_refl)
    as (m & mcp & _ & Hi & Hs & Ht & _).
  split; [exact Hs |]. rewrite Ht. injection Hi as <-. reflexivity.
Defined.

(** ** Saving the finished messages *)



(** X22. What [onFinish] posts is what the endpoint reads: for a request
    body that is an object, the posted body destructures on the server to
    the finished messages and the [chatId] of the request body
    ([undefined] when the request body has none), so the endpoint converts
    exactly those. *)
Theorem posted_body_round_trip :
  forall (convertToDBMessages : option JSON -> option JSON -> Exn + JSON)
         (props : list (jsstring * JSON)) (messages : JSON),
  exists body,
    Chat.persist_body (JObj props) messages = ret body /\
    Route.destructure body = ret (Some messages, assoc (lit "chatId") props) /\
    (forall records,
        Route.converted convertToDBMessages {| Route.json := inr body |} records
        <-> convertToDBMessages (Some messages) (assoc (lit "chatId") props)
            = inr records).
Proof.
  intros conv props messages.
  assert (H : exists body,
             Chat.persist_body (JObj props) messages = ret body /\
             Route.destructure body =
               ret (Some messages, assoc (lit "chatId") props)).
  { unfold Chat.persist_body. simpl.
    destruct (assoc (lit "chatId") props) as [c |]; simpl;
      eexists; split; reflexivity. }
  destruct H as (body & Hb & Hd). exists body.
  split; [exact Hb | split; [exact Hd |]].
  intros records. split.
  - intros (v & m & c & Hp & Hd' & Hc). unfold Route.parsed in Hp.
    simpl in Hp. injection Hp as <-. rewrite Hd in Hd'.
    injection Hd' as <- <-. exact Hc.
  - intros Hc. exists body, (Some messages), (assoc (lit "chatId") props).
    split; [reflexivity | split; [exact Hd | exact Hc]].
Qed.

(** ** One request, end to end *)




(** ** The user id effect *)

(** X25. In a routed session no history request is made before the user
    id is known; once the user id effect has stored a non-empty id, the
    first thing the query does is the GET for the route id with that user
    id in the [x-user-id] header. *)
Theorem history_waits_for_user_id :
  forall (getUserId c : jsstring) (s : Chat.Session)
         (env : nat -> Chat.Attempt),
    Chat.chatId s = Some c ->
    truthy c = true ->
    Chat.userId s = [] ->
    truthy getUserId = true ->
    let s' := Chat.userIdEffect getUserId s in
    fst (Chat.useQuery (Chat.chatId s) (Chat.userId s) env) = [] /\
    exists rest,
      fst (Chat.useQuery (Chat.chatId s') (Chat.userId s') env) =
      HttpGet (lit "/api/chats/" ++ c) [(lit "x-user-id", getUserId)] :: rest.
Proof.
  intros getUserId c s env Hc Ht Hu Hg s'. split.
  - rewrite Hc, Hu. unfold Chat.useQuery, Chat.enabled. simpl.
    rewrite andb_false_r. reflexivity.
  - subst s'. simpl. rewrite Hc.
    rewrite (useQuery_two_attempts c getUserId Ht Hg env).
    destruct (outcome (Chat.queryFn (Some c) getUserId (env 0)));
      [| eexists; reflexivity].
    destruct (outcome (Chat.queryFn (Some c) getUserId (env 1)));
      eexists; reflexivity.
Qed.

Lemma history_waits_for_user_id_witness :
  let s := {| Chat.chatId := Some (lit "Y");
              Chat.generatedChatId := [];
              Chat.userId := [];
              Chat.input := [];
              Chat.selectedModel := lit "m";
              Chat.mcpServersForApi := JArr [] |} in
  let env := fun _ : nat =>
               {| Chat.response := inl (TypeError "Failed to fetch");
                  Chat.now1 := []; Chat.now2 := [] |} in
  fst (Chat.useQuery (Chat.chatId s) (Chat.userId s) env) = [].
Proof.
  intros s env.
  exact (proj1 (history_waits_for_user_id (lit "u") s env
                  eq_refl eq_refl eq_refl eq_refl)).
Defined.

(* ===================================================================== *)
(** * The loop ceiling, the failed history fetch and the first submit *)
(* ===================================================================== *)

(** ** Tool rounds *)

Section LoopRounds.

Import CompletionEngine.

Variable model : list Part -> ModelReply.
Variable exec : jsstring -> JSON -> JSON.

(** A run that ends truncated has used up its steps, and each of them was
    a tool round. *)
Lemma loop_truncated_rounds n : forall h done,
  ending (loop n model exec h done) = Truncated ->
  steps (loop n model exec h done) = done + n /\
  rounds model exec n h (history (loop n model exec h done)).
Proof.
  induction n as [| k IH]; intros h done; simpl.
  - intros _. split; [lia | constructor].
  - destruct (model h) as [text | calls | error] eqn:Hm; simpl;
      try discriminate.
    intros He. destruct (IH _ _ He) as [Hs Hr].
    split; [lia | exact (rounds_S h Hm Hr)].
Qed.

(** A run that ends done went through tool rounds up to the step at which
    the model gave its final text. *)
Lemma loop_done_rounds n : forall h done,
  ending (loop n model exec h done) = Done ->
  exists k hk text,
    k < n /\ rounds model exec k h hk /\ model hk = Final text /\
    history (loop n model exec h done) = hk ++ [Text text] /\
    steps (loop n model exec h done) = done + S k.
Proof.
  induction n as [| k IH]; intros h done; simpl; [discriminate |].
  destruct (model h) as [text | calls | error] eqn:Hm; simpl;
    try discriminate.
  - intros _. exists 0, h, text.
    repeat split; [lia | constructor | exact Hm | lia].
  - intros He. destruct (IH _ _ He) as (j & hj & text & Hj & Hr & Hf & Hh & Hs).
    exists (S j), hj, text.
    repeat split; [lia | exact (rounds_S h Hm Hr) | exact Hf | exact Hh | lia].
Qed.

(** Tool rounds keep what was there and add to it. *)
Lemma rounds_extend n h h' :
  rounds model exec n h h' -> exists more, h' = h ++ more.
Proof.
  induction 1 as [h | n h calls h' Hm _ [more ->]].
  - exists []. rewrite app_nil_r. reflexivity.
  - exists ((call_parts calls ++ result_parts exec calls) ++ more).
    rewrite <- !app_assoc. reflexivity.
Qed.

(** Each round that requests at least one tool adds at least a call and
    its result. *)
Lemma rounds_grow n h h' :
  (forall h0 calls, model h0 = Invoke calls -> calls <> []) ->
  rounds model exec n h h' -> length h + 2 * n <= length h'.
Proof.
  intros Hne. induction 1 as [h | n h calls h' Hm _ IH]; [lia |].
  rewrite !length_app in IH. unfold call_parts, result_parts in IH.
  rewrite !length_map in IH.
  specialize (Hne h calls Hm). destruct calls as [| c calls];
    [contradiction Hne; reflexivity |].
  simpl in IH. lia.
Qed.

End LoopRounds.

(** C2. The stream [customFetch] sets up runs its tool-use loop with a
    ceiling of 20 steps, and so does the hook on the client.  Whatever the
    model answers, the loop takes at most 20 steps, and it is truncated only
    after 20 tool rounds.  Against a model that never gives a terminal
    response the loop asks the model 20 times, executes the tools requested
    each time, and then stops: the run ends truncated, not with an error,
    and its history is the initial one followed by the calls and results of
    all 20 rounds. *)
Theorem tool_loop_is_bounded :
  forall (JSON_parse : option jsstring -> Exn + JSON)
         (initializeMCPClients :
            option JSON -> option Chat.AbortSignal -> Exn + Chat.MCPClientManager)
         (persist : JSON -> Exn + Route.NextResponse)
         (options : option Chat.RequestInit)
         (stream : Chat.streamText.Options)
         (model : list CompletionEngine.Part -> CompletionEngine.ModelReply)
         (exec : jsstring -> JSON -> JSON)
         (h : list CompletionEngine.Part),
    outcome (Chat.customFetch JSON_parse initializeMCPClients persist options)
      = inr stream ->
    (forall h', CompletionEngine.is_terminal (model h') = false) ->
    let maxSteps := Chat.streamText.maxSteps stream in
    let r := CompletionEngine.run maxSteps model exec h in
    maxSteps = 20 /\
    (forall s, Chat.useChat.maxSteps (Chat.useChat_options s) = 20) /\
    (forall model',
        let r' := CompletionEngine.run maxSteps model' exec h in
        CompletionEngine.steps r' <= 20 /\
        (CompletionEngine.ending r' = CompletionEngine.Truncated ->
         CompletionEngine.steps r' = 20 /\
         CompletionEngine.rounds model' exec 20 h (CompletionEngine.history r'))) /\
    CompletionEngine.ending r = CompletionEngine.Truncated /\
    CompletionEngine.steps r = 20 /\
    CompletionEngine.rounds model exec 20 h (CompletionEngine.history r) /\
    (exists more, CompletionEngine.history r = h ++ more) /\
    ((forall h' calls, model h' = CompletionEngine.Invoke calls -> calls <> []) ->
     length h + 40 <= length (CompletionEngine.history r)).
Proof.
  intros parse init persist options stream model exec h Hs Hnever maxSteps r.
  destruct (customFetch_stream parse init persist options Hs) as (Hmax & _).
  subst r maxSteps. rewrite Hmax. unfold CompletionEngine.run.
  destruct (loop_truncates exec model 20 Hnever h 0) as (He & _ & _).
  destruct (loop_truncated_rounds model exec 20 h 0 He) as [Hst Hr].
  split; [reflexivity |]. split; [reflexivity |]. split.
  - intros model'. cbv zeta. split.
    + pose proof (loop_steps_le exec model' 20 h 0). lia.
    + intros He'.
      destruct (loop_truncated_rounds model' exec 20 h 0 He') as [Hs' Hr'].
      split; [exact Hs' | exact Hr'].
  - split; [exact He |]. split; [exact Hst |]. split; [exact Hr |].
    split; [exact (rounds_extend Hr) |].
    intros Hne. pose proof (rounds_grow Hne Hr). lia.
Qed.

Lemma tool_loop_is_bounded_witness :
  let parse := fun _ : option jsstring =>
                 @inr Exn JSON (JObj [(lit "chatId", JStr (lit "X"));
                                      (lit "mcpServers", JArr [])]) in
  let init := fun (_ : option JSON) (_ : option Chat.AbortSignal) =>
                @inr Exn Chat.MCPClientManager {| Chat.tools := JObj [] |} in
  let persist := fun _ : JSON => @inr Exn Route.NextResponse Route.ok_response in
  let options := Some {| Chat.body := Some (lit "{}"); Chat.signal := None |} in
  let model := fun _ : list CompletionEngine.Part =>
                 CompletionEngine.Invoke [(lit "search", JNull)] in
  let exec := fun (_ : jsstring) (_ : JSON) => JStr (lit "hit") in
  returns (Chat.customFetch parse init persist options) = true /\
  CompletionEngine.steps (CompletionEngine.run 20 model exec []) = 20 /\
  CompletionEngine.ending (CompletionEngine.run 20 model exec []) =
    CompletionEngine.Truncated /\
  40 <= length (CompletionEngine.history (CompletionEngine.run 20 model exec [])).
Proof.
  intros parse init persist options model exec.
  destruct (tool_loop_is_bounded parse init persist options model exec []
              eq_refl (fun _ => eq_refl))
    as (_ & _ & _ & Hend & Hsteps & _ & _ & Hgrow).
  split; [reflexivity |]. split; [exact Hsteps |]. split; [exact Hend |].
  apply Hgrow. intros h' calls H. injection H as <-. discriminate.
Defined.

(** ** The failed history fetch *)

(** C4, as the claim states it, fails: a history fetch answered with
    status 500 whose retry is answered with the stored conversation is
    neither logged nor notified. *)
Lemma failed_fetch_then_retry_counterexample :
  ~ (forall (chatId userId : jsstring) (env : nat -> Chat.Attempt),
        truthy chatId = true ->
        truthy userId = true ->
        Chat.failed_response (env 0) ->
        count is_toast
              (trace (Chat.errorEffect
                        (Chat.error
                           (snd (Chat.useQuery (Some chatId) userId env)))))
        = 1).
Proof.
  intros H.
  specialize (H (lit "Y") (lit "u")
                (fun i => {| Chat.response :=
                               match i with
                               | 0 => inr {| Chat.status := 500;
                                             Chat.json := inl (Error "no body") |}
                               | _ => inr {| Chat.status := 200;
                                             Chat.json :=
                                               inr (Some {| Chat.id := lit "Y";
                                                            Chat.messages := Some [];
                                                            Chat.createdAt := lit "t";
                                                            Chat.updatedAt := lit "t" |}) |}
                               end;
                             Chat.now1 := []; Chat.now2 := [] |})
                eq_refl eq_refl).
  assert (Hf : Chat.failed_response
                 {| Chat.response := inr {| Chat.status := 500;
                                            Chat.json := inl (Error "no body") |};
                    Chat.now1 := []; Chat.now2 := [] |}).
  { eexists. split; [reflexivity | split; [reflexivity | discriminate]]. }
  specialize (H Hf). vm_compute in H. discriminate H.
Qed.

(** C4 (amended). Every history fetch answered with a status that is
    neither a success nor 404 makes the query function throw.  The query
    retries once.  When the first attempt is such a fetch and the retry
    throws as well, and when the retry is such a fetch, the error of the
    retry is logged and shown as a notification and the initial message
    list is the empty list; when the first attempt is such a fetch and the
    retry returns, nothing is logged or notified and the query holds what
    the retry returned. *)
Theorem failed_fetch_is_reported :
  forall (convertToUIMessages : list Chat.DBMessage -> list Chat.UIMessage)
         (chatId userId : jsstring) (env : nat -> Chat.Attempt),
    truthy chatId = true ->
    truthy userId = true ->
    let q := snd (Chat.useQuery (Some chatId) userId env) in
    let thrown i e :=
      outcome (Chat.queryFn (Some chatId) userId (env i)) = inl e in
    (forall i, Chat.failed_response (env i) ->
               thrown i (Error "Failed to load chat")) /\
    (forall e, Chat.failed_response (env 0) -> thrown 1 e ->
               Chat.reported convertToUIMessages q e) /\
    (forall e0, thrown 0 e0 -> Chat.failed_response (env 1) ->
                Chat.reported convertToUIMessages q (Error "Failed to load chat")) /\
    (forall d, Chat.failed_response (env 0) ->
               outcome (Chat.queryFn (Some chatId) userId (env 1)) = inr d ->
               Chat.data q = d /\ Chat.error q = None /\
               Chat.errorEffect (Chat.error q) = ([], inr tt)).
Proof.
  intros conv chatId userId env Hc Hu q thrown.
  assert (Hthrow : forall i, Chat.failed_response (env i) ->
                             thrown i (Error "Failed to load chat")).
  { intros i (r & Hr & Hok & Hs). unfold thrown.
    rewrite (queryFn_failed chatId userId Hc Hu (env i) Hr Hok Hs).
    reflexivity. }
  assert (Hrep : forall e0 e, thrown 0 e0 -> thrown 1 e ->
                              Chat.reported conv q e).
  { intros e0 e H0 H1. unfold thrown in H0, H1. subst q.
    rewrite (useQuery_two_attempts chatId userId Hc Hu env), H0, H1.
    repeat split. }
  split; [exact Hthrow |]. split; [| split].
  - intros e Hf H1. exact (Hrep _ e (Hthrow 0 Hf) H1).
  - intros e0 H0 Hf. exact (Hrep e0 _ H0 (Hthrow 1 Hf)).
  - intros d Hf H1. pose proof (Hthrow 0 Hf) as H0. unfold thrown in H0.
    subst q. rewrite (useQuery_two_attempts chatId userId Hc Hu env), H0, H1.
    repeat split.
Qed.

Lemma failed_fetch_is_reported_witness :
  let env := fun i : nat =>
               {| Chat.response :=
                    match i with
                    | 0 => inr {| Chat.status := 500;
                                  Chat.json := inl (Error "no body") |}
                    | _ => inl (TypeError "Failed to fetch")
                    end;
                  Chat.now1 := []; Chat.now2 := [] |} in
  Chat.reported (fun _ => [])
                (snd (Chat.useQuery (Some (lit "Y")) (lit "u") env))
                (TypeError "Failed to fetch").
Proof.
  intros env.
  destruct (failed_fetch_is_reported (fun _ => []) (lit "Y") (lit "u") env
              eq_refl eq_refl) as (_ & H & _).
  apply H; [| reflexivity].
  eexists. split; [reflexivity | split; [reflexivity | discriminate]].
Defined.

(** ** The first submit and the navigation that follows it *)






(* ===================================================================== *)
(** * The whole of [customFetch], and streams that do not finish *)
(* ===================================================================== *)

Section ResponseProperties.

Variable JSON_parse : option jsstring -> Exn + JSON.
Variable initializeMCPClients :
  option JSON -> option Chat.AbortSignal -> Exn + Chat.MCPClientManager.
Variable persist : JSON -> Exn + Route.NextResponse.
Variable streamText_call : Chat.streamText.Options -> Exn + unit.

Let setup := Chat.customFetch JSON_parse initializeMCPClients persist.
Let customFetch :=
  Chat.customFetch_response JSON_parse initializeMCPClients persist
                            streamText_call.

(** [customFetch] is its set-up followed by the call. *)
Lemma customFetch_response_cases options :
  customFetch options =
  match outcome (setup options) with
  | inl e => ([], inl e)
  | inr stream =>
      match streamText_call stream with
      | inl e => ([], inl e)
      | inr _ => ([], inr stream)
      end
  end.
Proof.
  unfold customFetch, Chat.customFetch_response. fold setup.
  pose proof (customFetch_pure JSON_parse initializeMCPClients persist options)
    as Ht. fold setup in Ht.
  destruct (setup options) as [t [e | stream]]; simpl in Ht; subst t; simpl;
    [reflexivity |].
  destruct (streamText_call stream) as [e | []]; reflexivity.
Qed.

(** The set-up throws in three cases only. *)
Lemma setup_throws_iff options e :
  outcome (setup options) = inl e <->
  (JSON_parse (Chat.body_of options) = inl e \/
   (JSON_parse (Chat.body_of options) = inr JNull /\
    e = TypeError "Cannot read properties of null (reading 'mcpServers')") \/
   (exists m,
       JSON_parse (Chat.body_of options) = inr m /\ m <> JNull /\
       initializeMCPClients (Chat.own m "mcpServers") (Chat.signal_of options)
         = inl e)).
Proof.
  unfold setup.
  destruct (JSON_parse (Chat.body_of options)) as [e' | m] eqn:Hp.
  - rewrite (customFetch_unparsed JSON_parse initializeMCPClients persist
               options Hp). simpl. split.
    + intros H. injection H as ->. left. reflexivity.
    + intros [H | [[H _] | (m & H & _)]]; [| discriminate H | discriminate H].
      injection H as ->. reflexivity.
  - destruct (JSON_null_dec m) as [-> | Hm].
    + rewrite (customFetch_null JSON_parse initializeMCPClients persist
                 options Hp). simpl. split.
      * intros H. injection H as <-. right. left. split; reflexivity.
      * intros [H | [[_ ->] | (m & H & Hm & _)]];
          [discriminate H | reflexivity |].
        injection H as <-. contradiction Hm; reflexivity.
    + rewrite (customFetch_parsed JSON_parse initializeMCPClients persist
                 options Hp Hm). split.
      * destruct (initializeMCPClients _ _) as [e' | mcp] eqn:Hi;
          [| discriminate].
        simpl. intros H. injection H as ->. right. right. exists m.
        split; [reflexivity | split; [exact Hm | exact Hi]].
      * intros [H | [[H _] | (m' & H & _ & Hi)]]; [discriminate H | |].
        -- injection H as ->. contradiction Hm; reflexivity.
        -- injection H as <-. rewrite Hi. reflexivity.
Qed.

(** When the set-up returns, the body parsed and the tool connections
    were opened. *)
Lemma setup_returns options stream :
  outcome (setup options) = inr stream ->
  exists m mcp,
    JSON_parse (Chat.body_of options) = inr m /\ m <> JNull /\
    initializeMCPClients (Chat.own m "mcpServers") (Chat.signal_of options)
      = inr mcp.
Proof.
  unfold setup.
  destruct (JSON_parse (Chat.body_of options)) as [e | m] eqn:Hp.
  - rewrite (customFetch_unparsed JSON_parse initializeMCPClients persist
               options Hp). discriminate.
  - destruct (JSON_null_dec m) as [-> | Hm].
    + rewrite (customFetch_null JSON_parse initializeMCPClients persist
                 options Hp). discriminate.
    + rewrite (customFetch_parsed JSON_parse initializeMCPClients persist
                 options Hp Hm).
      destruct (initializeMCPClients _ _) as [e | mcp] eqn:Hi; [discriminate |].
      intros _. exists m, mcp. repeat split; assumption.
Qed.

End ResponseProperties.

(** X18. [customFetch] returns its response exactly when the request body
    parses to a value other than [null], [initializeMCPClients] resolves
    for the body's [mcpServers] and the request's abort signal, and
    [streamText] takes the options built from them. *)
Theorem customFetch_returns_iff :
  forall (JSON_parse : option jsstring -> Exn + JSON)
         (initializeMCPClients :
            option JSON -> option Chat.AbortSignal -> Exn + Chat.MCPClientManager)
         (persist : JSON -> Exn + Route.NextResponse)
         (streamText_call : Chat.streamText.Options -> Exn + unit)
         (options : option Chat.RequestInit),
    returns (Chat.customFetch_response JSON_parse initializeMCPClients persist
                                       streamText_call options) = true <->
    exists m mcp stream,
      JSON_parse (Chat.body_of options) = inr m /\ m <> JNull /\
      initializeMCPClients (Chat.own m "mcpServers") (Chat.signal_of options)
        = inr mcp /\
      outcome (Chat.customFetch JSON_parse initializeMCPClients persist options)
        = inr stream /\
      streamText_call stream = inr tt.
Proof.
  intros parse init persist call options.
  rewrite (customFetch_response_cases parse init persist call options).
  split.
  - destruct (parse (Chat.body_of options)) as [e | m] eqn:Hp.
    + rewrite (customFetch_unparsed parse init persist options Hp).
      discriminate.
    + destruct (JSON_null_dec m) as [-> | Hm].
      * rewrite (customFetch_null parse init persist options Hp).
        discriminate.
      * rewrite (customFetch_parsed parse init persist options Hp Hm).
        destruct (init _ _) as [e | mcp] eqn:Hi; [discriminate |].
        simpl. destruct (call _) as [e | []] eqn:Hcall; [discriminate |].
        intros _. exists m, mcp. eexists.
        split; [reflexivity | split; [exact Hm | split; [exact Hi |]]].
        split; [reflexivity | exact Hcall].
  - intros (m & mcp & stream & _ & _ & _ & Hs & Hcall).
    rewrite Hs, Hcall. reflexivity.
Qed.

(** X20. [customFetch] throws in four cases only, and in none of them has
    it done anything observable: the body does not parse (it throws the
    parse error), the body is [null] (the TypeError of reading
    [mcpServers]), [initializeMCPClients] rejects (the rejection), or
    [streamText] throws on the options (that error).  In the last case the
    tool connections have been opened, and they are not released. *)
Theorem customFetch_throws_iff :
  forall (JSON_parse : option jsstring -> Exn + JSON)
         (initializeMCPClients :
            option JSON -> option Chat.AbortSignal -> Exn + Chat.MCPClientManager)
         (persist : JSON -> Exn + Route.NextResponse)
         (streamText_call : Chat.streamText.Options -> Exn + unit)
         (options : option Chat.RequestInit) (e : Exn),
    Chat.customFetch_response JSON_parse initializeMCPClients persist
                              streamText_call options = ([], inl e) <->
    (JSON_parse (Chat.body_of options) = inl e \/
     (JSON_parse (Chat.body_of options) = inr JNull /\
      e = TypeError "Cannot read properties of null (reading 'mcpServers')") \/
     (exists m,
         JSON_parse (Chat.body_of options) = inr m /\ m <> JNull /\
         initializeMCPClients (Chat.own m "mcpServers") (Chat.signal_of options)
           = inl e) \/
     (exists m mcp stream,
         JSON_parse (Chat.body_of options) = inr m /\
         initializeMCPClients (Chat.own m "mcpServers") (Chat.signal_of options)
           = inr mcp /\
         outcome (Chat.customFetch JSON_parse initializeMCPClients persist
                                   options) = inr stream /\
         streamText_call stream = inl e)).
Proof.
  intros parse init persist call options e.
  rewrite (customFetch_response_cases parse init persist call options).
  destruct (outcome (Chat.customFetch parse init persist options))
    as [e' | stream] eqn:Hs.
  - split.
    + intros H. injection H as ->.
      apply (setup_throws_iff parse init persist options e) in Hs.
      destruct Hs as [H | [H | H]]; [left | right; left | right; right; left];
        exact H.
    + intros H.
      assert (Hthrown : outcome (Chat.customFetch parse init persist options)
                        = inl e).
      { apply (setup_throws_iff parse init persist options e).
        destruct H as [H | [H | [H | (m & mcp & stream & _ & _ & H & _)]]];
          [left; exact H | right; left; exact H | right; right; exact H |].
        discriminate H. }
      rewrite Hs in Hthrown. injection Hthrown as ->. reflexivity.
  - destruct (setup_returns parse init persist options Hs)
      as (m & mcp & Hp & _ & Hi).
    split.
    + destruct (call stream) as [e' | u] eqn:Hcall; [| discriminate].
      intros H. injection H as ->. right. right. right.
      exists m, mcp, stream. repeat split; assumption.
    + intros [H | [H | [H | (m' & mcp' & stream' & _ & _ & H & Hcall)]]].
      * assert (Hx : outcome (Chat.customFetch parse init persist options)
                     = inl e)
          by (apply (setup_throws_iff parse init persist options e); auto).
        rewrite Hs in Hx. discriminate Hx.
      * assert (Hx : outcome (Chat.customFetch parse init persist options)
                     = inl e)
          by (apply (setup_throws_iff parse init persist options e); auto).
        rewrite Hs in Hx. discriminate Hx.
      * assert (Hx : outcome (Chat.customFetch parse init persist options)
                     = inl e)
          by (apply (setup_throws_iff parse init persist options e); auto).
        rewrite Hs in Hx. discriminate Hx.
      * injection H as <-. rewrite Hcall. reflexivity.
Qed.

(** X24. A stream that reports errors and never finishes leaves this of
    its request: one log entry for each error, in the order reported, and
    nothing else.  Nothing is posted to [/api/chat/messages], no
    notification is raised, and the tool connections are not released,
    however many errors there are, none included. *)
Theorem request_without_finish :
  forall (JSON_parse : option jsstring -> Exn + JSON)
         (initializeMCPClients :
            option JSON -> option Chat.AbortSignal -> Exn + Chat.MCPClientManager)
         (persist : JSON -> Exn + Route.NextResponse)
         (options : option Chat.RequestInit)
         (stream : Chat.streamText.Options) (errors : list Exn),
    outcome (Chat.customFetch JSON_parse initializeMCPClients persist options)
      = inr stream ->
    Chat.serve JSON_parse initializeMCPClients persist options
               (map Chat.streamText.OnError errors)
    = (map (fun error => ConsoleError [LogStringified error]) errors, inr tt).
Proof.
  intros parse init persist options stream errors Hs.
  destruct (customFetch_stream parse init persist options Hs) as (_ & HE & _).
  assert (Hd : Chat.streamText.deliver stream
                 (map Chat.streamText.OnError errors)
               = (map (fun error => ConsoleError [LogStringified error]) errors,
                  inr tt)).
  { induction errors as [| error rest IH]; [reflexivity |].
    simpl. rewrite HE, IH. reflexivity. }
  unfold Chat.serve.
  pose proof (customFetch_pure parse init persist options) as Ht.
  destruct (Chat.customFetch parse init persist options) as [t [x | s]];
    simpl in Hs, Ht; [discriminate |].
  injection Hs as ->. subst t. simpl. rewrite Hd. reflexivity.
Qed.

Lemma request_without_finish_witness :
  let parse := fun _ : option jsstring =>
                 @inr Exn JSON (JObj [(lit "chatId", JStr (lit "X"));
                                      (lit "mcpServers", JArr [])]) in
  let init := fun (_ : option JSON) (_ : option Chat.AbortSignal) =>
                @inr Exn Chat.MCPClientManager {| Chat.tools := JObj [] |} in
  let persist := fun _ : JSON => @inr Exn Route.NextResponse Route.ok_response in
  let options := Some {| Chat.body := Some (lit "{}"); Chat.signal := None |} in
  Chat.serve parse init persist options
             [Chat.streamText.OnError (Error "rate limited");
              Chat.streamText.OnError (Error "aborted")]
  = ([ConsoleError [LogStringified (Error "rate limited")];
      ConsoleError [LogStringified (Error "aborted")]], inr tt).
Proof.
  intros parse init persist options.
  exact (request_without_finish parse init persist options
           [Error "rate limited"; Error "aborted"] eq_refl).
Defined.
